(** * A shallow embedding of [main.py]: the MNIST classifier, its lifecycle
      hooks, the data module and the metrics it logs.

    Numbers.  Tensors and numpy arrays of floating-point numbers are embedded
    as exact rationals [Q]; rounding is outside the model.  The one place
    where the script leaves the finite numbers (a division whose divisor can
    be zero, the mean of an empty array) is kept through [xq], the rationals
    extended with the IEEE specials.

    Errors.  A Python exception is a [Raise]; a hook that logs is a
    computation over the list of events sent to the tracking service. *)

From Stdlib Require Import String Ascii.
From Stdlib Require Import List NArith ZArith QArith Qminmax Qpower Bool Arith Lia.
From Stdlib Require Import Permutation DecimalString.
From Stdlib Require DecimalPos DecimalZ.
Import ListNotations.

Open Scope Q_scope.

(** ** Python exceptions and results *)

Inductive exn : Type :=
| ValueError
| RuntimeError
| IndexError
| KeyError.

Inductive result (A : Type) : Type :=
| Ok (a : A)
| Raise (e : exn).

Arguments Ok {A} a.
Arguments Raise {A} e.

Definition rbind {A B : Type} (r : result A) (k : A -> result B) : result B :=
  match r with
  | Ok a => k a
  | Raise e => Raise e
  end.

(** ** Floating-point values that may leave the finite range *)

Inductive xq : Type :=
| Fin (q : Q)
| PInf
| NInf
| NaN.

(** IEEE division of two finite values: [0/0] is [NaN], [a/0] an infinity
    (numpy warns and goes on, it does not raise). *)
Definition xdiv (a b : Q) : xq :=
  if Qeq_bool b 0 then
    if Qeq_bool a 0 then NaN
    else if Qle_bool 0 a then PInf else NInf
  else Fin (a / b).

(** ** Tensors: a shape and the flat, row-major storage *)

Record tensor (A : Type) : Type := mkTensor {
  shape : list nat;
  data : list A
}.

Arguments mkTensor {A} shape data.
Arguments shape {A} t.
Arguments data {A} t.

Definition numel (s : list nat) : nat := fold_right Nat.mul 1%nat s.

Definition wf_tensor {A : Type} (t : tensor A) : Prop :=
  length (data t) = numel (shape t).

(** The [n] rows of width [k] of a flat storage. *)
Definition rows {A : Type} (n k : nat) (d : list A) : list (list A) :=
  map (fun i => firstn k (skipn (i * k) d)) (seq 0 n).

Fixpoint map2 {A B C : Type} (f : A -> B -> C) (u : list A) (v : list B) : list C :=
  match u, v with
  | a :: u', b :: v' => f a b :: map2 f u' v'
  | _, _ => []
  end.

Definition list_eq_dec_bool (u v : list nat) : bool :=
  if list_eq_dec Nat.eq_dec u v then true else false.

Definition Qsum (l : list Q) : Q := fold_right Qplus 0 l.

Definition str_int (z : Z) : string := NilZero.string_of_int (Z.to_int z).

(** ** numpy *)

Module np.

(** [np.append(arr, values)]: both flattened, then concatenated. *)
Definition append {A : Type} (arr values : list A) : list A := arr ++ values.

(** [arr.mean()]: the sum over the count; [NaN] on an empty array. *)
Definition mean (arr : list Q) : xq :=
  xdiv (Qsum arr) (inject_Z (Z.of_nat (length arr))).

(** [np.not_equal(a, b)] on one-dimensional arrays: elementwise, an array
    of one element is broadcast, other lengths do not fit together. *)
Definition not_equal (a b : list Z) : result (list bool) :=
  let ne := fun u v => negb (Z.eqb u v) in
  if (length a =? length b)%nat then Ok (map2 ne a b)
  else match a, b with
       | [u], _ => Ok (map (ne u) b)
       | _, [v] => Ok (map (fun u => ne u v) a)
       | _, _ => Raise ValueError
       end.

Fixpoint where_from (i : nat) (mask : list bool) : list nat :=
  match mask with
  | [] => []
  | true :: m => i :: where_from (S i) m
  | false :: m => where_from (S i) m
  end.

(** [np.where(mask)[0]]: the indices at which [mask] holds, ascending. *)
Definition where_ (mask : list bool) : list nat := where_from 0 mask.

(** [np.amax(arr)]: raises on an empty array. *)
Definition amax (arr : list Q) : result Q :=
  match arr with
  | [] => Raise ValueError
  | v :: t => Ok (fold_left Qmax t v)
  end.

(** [np.squeeze]: drops the axes of length one. *)
Definition squeeze {A : Type} (t : tensor A) : tensor A :=
  mkTensor (filter (fun d => negb (d =? 1)%nat) (shape t)) (data t).

End np.

(** ** scikit-learn *)

Module sklearn.

(** [accuracy_score(y_true, y_pred)]: the mean of the elementwise
    agreement; arrays of different lengths are refused. *)
Definition accuracy_score (y_true y_pred : list Z) : result xq :=
  if (length y_true =? length y_pred)%nat
  then Ok (np.mean (map2 (fun u v => if Z.eqb u v then 1 else 0) y_true y_pred))
  else Raise ValueError.

End sklearn.

(** ** torch *)

Module torch.

(** [x.view(x.size(0), -1)]: keeps the first axis and infers the second.
    A tensor without axes has no [size(0)]; with a first axis of length
    zero the inferred axis is ambiguous and torch refuses it. *)
Definition view_rows {A : Type} (x : tensor A) : result (tensor A) :=
  match shape x with
  | [] => Raise IndexError
  | n :: _ =>
      if (n =? 0)%nat then Raise RuntimeError
      else if (length (data x) mod n =? 0)%nat
           then Ok (mkTensor [n; (length (data x) / n)%nat] (data x))
           else Raise RuntimeError
  end.

(** [x[j]]: the [j]-th slice along the first axis. *)
Definition select {A : Type} (x : tensor A) (j : nat) : result (tensor A) :=
  match shape x with
  | [] => Raise IndexError
  | n :: s =>
      if (j <? n)%nat
      then Ok (mkTensor s (firstn (numel s) (skipn (j * numel s) (data x))))
      else Raise IndexError
  end.

(** [torch.nn.Linear]: [weight] of shape (out_features, in_features) and
    [bias] of shape (out_features). *)
Record Linear : Type := mkLinear {
  in_features : nat;
  out_features : nat;
  weight : tensor Q;
  bias : tensor Q
}.

(** The constructor.  The initial values are drawn at random: they are the
    arguments [w] (by output and input index) and [b]; a negative dimension
    is refused. *)
Definition nn_Linear (w : nat -> nat -> Q) (b : nat -> Q) (n_in n_out : Z)
  : result Linear :=
  if (n_in <? 0)%Z || (n_out <? 0)%Z then Raise RuntimeError
  else
    let i := Z.to_nat n_in in
    let o := Z.to_nat n_out in
    Ok (mkLinear i o
          (mkTensor [o; i] (flat_map (fun r => map (w r) (seq 0 i)) (seq 0 o)))
          (mkTensor [o] (map b (seq 0 o)))).

Definition dot (u v : list Q) : Q := Qsum (map2 Qmult u v).

(** One output row of a linear layer: [W r + b]. *)
Definition affine (l : Linear) (r : list Q) : list Q :=
  map2 (fun wrow bo => dot r wrow + bo)
       (rows (out_features l) (in_features l) (data (weight l)))
       (data (bias l)).

(** [layer(x)]: the last axis of [x] must be [in_features]; every row along
    it is mapped to a row of [out_features] values. *)
Definition Linear_call (l : Linear) (x : tensor Q) : result (tensor Q) :=
  match rev (shape x) with
  | [] => Raise RuntimeError
  | k :: lead =>
      if (k =? in_features l)%nat
      then Ok (mkTensor (rev lead ++ [out_features l])
                 (flat_map (affine l) (rows (numel lead) k (data x))))
      else Raise RuntimeError
  end.

(** [F.relu]. *)
Definition relu (x : tensor Q) : tensor Q :=
  mkTensor (shape x) (map (Qmax 0) (data x)).

Fixpoint argmax_from (best_i : nat) (best : Q) (i : nat) (l : list Q) : nat :=
  match l with
  | [] => best_i
  | v :: t =>
      if Qle_bool v best then argmax_from best_i best (S i) t
      else argmax_from i v (S i) t
  end.

(** Index of the first greatest entry of a non-empty row. *)
Definition argmax_row (r : list Q) : nat :=
  match r with
  | [] => 0%nat
  | v :: t => argmax_from 0 v 1 t
  end.

(** [y_hat.argmax(axis=1)] on a two-dimensional tensor with a non-empty
    second axis. *)
Definition argmax_axis1 (x : tensor Q) : result (list Z) :=
  match shape x with
  | [n; c] =>
      if (c =? 0)%nat then Raise IndexError
      else Ok (map (fun r => Z.of_nat (argmax_row r)) (rows n c (data x)))
  | _ => Raise IndexError
  end.

(** [torch.optim.Adam(params, lr=...)]: the one parameter group and its
    learning rate, the only part of the optimizer the schedule touches.  A
    negative rate is refused. *)
Record Optimizer : Type := mkOptimizer {
  lr : Q
}.

Definition Adam (learning_rate : Q) : result Optimizer :=
  if Qle_bool 0 learning_rate then Ok (mkOptimizer learning_rate)
  else Raise ValueError.

(** [LambdaLR]: the scheduler keeps the optimizer it drives (one object,
    shared with the trainer), the rate the optimizer started with and the
    epoch counter. *)
Record LambdaLR : Type := mkLambdaLR {
  optimizer : Optimizer;
  base_lr : Q;
  lr_lambda : Z -> Q;
  last_epoch : Z
}.

(** [scheduler.step()]: the counter goes up by one and the rate of the
    optimizer becomes [base_lr * lr_lambda(last_epoch)]. *)
Definition step (s : LambdaLR) : LambdaLR :=
  let e := (last_epoch s + 1)%Z in
  mkLambdaLR (mkOptimizer (base_lr s * lr_lambda s e)) (base_lr s) (lr_lambda s) e.

(** The constructor records the initial rate, starts the counter at [-1]
    and takes one initial step. *)
Definition new_LambdaLR (o : Optimizer) (f : Z -> Q) : LambdaLR :=
  step (mkLambdaLR o (lr o) f (-1)%Z).

(** [default_collate] on tensors of one shape: [torch.stack] along a new
    first axis. *)
Definition stack {A : Type} (ts : list (tensor A)) : result (tensor A) :=
  match ts with
  | [] => Raise RuntimeError
  | t :: _ =>
      if forallb (fun u => list_eq_dec_bool (shape u) (shape t)) ts
      then Ok (mkTensor (length ts :: shape t) (concat (map data ts)))
      else Raise RuntimeError
  end.

End torch.

(** ** torchvision *)

Module transforms.

(** [ToTensor] on a grey image of bytes, height by width: one channel in
    front, every byte divided by 255. *)
Definition ToTensor (img : tensor Z) : tensor Q :=
  mkTensor (1%nat :: shape img) (map (fun p => inject_Z p / 255) (data img)).

(** The entry of a per-channel vector for channel [c]; a vector of one
    entry is broadcast. *)
Definition channel_value (v : list Q) (c : nat) : Q :=
  match v with
  | [m] => m
  | _ => nth c v 0
  end.

Definition fits (v : list Q) (c : nat) : bool :=
  (length v =? 1)%nat || (length v =? c)%nat.

(** [Normalize(mean, std)]: on an image of shape (C, H, W), channel by
    channel, subtract the mean and divide by the std.  A zero std is
    refused. *)
Definition Normalize (mean std : list Q) (t : tensor Q) : result (tensor Q) :=
  match shape t with
  | [c; h; w] =>
      if existsb (fun s => Qeq_bool s 0) std then Raise ValueError
      else if fits mean c && fits std c
      then Ok (mkTensor [c; h; w]
                 (concat (map2 (fun i ch =>
                                  map (fun v => (v - channel_value mean i)
                                                / channel_value std i) ch)
                               (seq 0 c) (rows c (h * w) (data t)))))
      else Raise RuntimeError
  | _ => Raise ValueError
  end.

End transforms.

(** ** torch.utils.data *)

Module data.

Record Subset (D : Type) : Type := mkSubset {
  dataset : D;
  indices : list nat
}.

Arguments mkSubset {D} dataset indices.
Arguments dataset {D} s.
Arguments indices {D} s.

Fixpoint accumulate_from (acc : N) (l : list N) : list N :=
  match l with
  | [] => []
  | x :: t => (acc + x)%N :: accumulate_from (acc + x) t
  end.

(** [itertools.accumulate]: the running sums. *)
Definition accumulate (l : list N) : list N := accumulate_from 0 l.

(** [sum(lengths)]. *)
Definition sum (l : list N) : N := fold_left N.add l 0%N.

(** [indices[a:b]] of Python, for [0 <= a <= b]. *)
Definition slice {A : Type} (l : list A) (a b : N) : list A :=
  firstn (N.to_nat (b - a)) (skipn (N.to_nat a) l).

(** [random_split(dataset, lengths)]: the lengths must add up to the size
    of the dataset; one random permutation of the indices is cut into
    consecutive pieces of the given lengths.  [randperm n] is the
    permutation that was drawn. *)
Definition random_split {D : Type} (len : D -> nat) (randperm : nat -> list nat)
    (ds : D) (lengths : list N) : result (list (Subset D)) :=
  if (sum lengths =? N.of_nat (len ds))%N
  then
    let perm := randperm (N.to_nat (sum lengths)) in
    Ok (map (fun ol => mkSubset ds (slice perm (fst ol - snd ol) (fst ol)))
            (combine (accumulate lengths) lengths))
  else Raise ValueError.

End data.

(** ** The tracking service *)

(** What reaches the logger: a scalar through [self.log], or an image
    appended to a series of the run through
    [neptune_logger.experiment[key].log]. *)
Inductive event : Type :=
| self_log (name : string) (value : xq)
| experiment_log (key : string) (as_image : tensor xq)
                 (name description : option string).

(** A hook: it reads and extends the events sent so far, and returns or
    raises. *)
Definition M (A : Type) : Type := list event -> result A * list event.

Definition ret {A : Type} (a : A) : M A := fun s => (Ok a, s).

Definition bind {A B : Type} (m : M A) (k : A -> M B) : M B :=
  fun s =>
    match m s with
    | (Ok a, s') => k a s'
    | (Raise e, s') => (Raise e, s')
    end.

Definition lift {A : Type} (r : result A) : M A := fun s => (r, s).

Definition emit (e : event) : M unit := fun s => (Ok tt, s ++ [e]).

Notation "x <- m ;; k" := (bind m (fun x => k))
  (at level 61, m at next level, right associativity).
Notation "m ;;; k" := (bind m (fun _ => k))
  (at level 61, right associativity).

(** A [for] loop whose body logs. *)
Fixpoint for_each {A : Type} (l : list A) (body : A -> M unit) : M unit :=
  match l with
  | [] => ret tt
  | a :: t => body a ;;; for_each t body
  end.

Definition tmap {A B : Type} (f : A -> B) (t : tensor A) : tensor B :=
  mkTensor (shape t) (map f (data t)).

Notation "x <~ r ;; k" := (rbind r (fun x => k))
  (at level 61, r at next level, right associativity).

(** [l[i]] on a Python sequence, for a non-negative [i]. *)
Definition index {A : Type} (l : list A) (i : nat) : result A :=
  match nth_error l i with
  | Some a => Ok a
  | None => Raise IndexError
  end.

Definition str_nat (n : nat) : string := str_int (Z.of_nat n).

Definition newline : string := String (ascii_of_nat 10) EmptyString.

(** ** [LitModel] *)

Record LitModel : Type := mkLitModel {
  linear : Z;
  learning_rate : Q;
  decay_factor : Q;
  layer_1 : torch.Linear;
  layer_2 : torch.Linear;
  layer_3 : torch.Linear;
  current_epoch : nat
}.

(** [__init__].  [w k] and [b k] are the values layer [k] is initialised
    with.  The attribute [linear] is assigned twice and keeps [linear_2]. *)
Definition LitModel_init (w : nat -> nat -> nat -> Q) (b : nat -> nat -> Q)
    (linear_1 linear_2 : Z) (learning_rate decay_factor : Q) : result LitModel :=
  l1 <~ torch.nn_Linear (w 1%nat) (b 1%nat) (28 * 28) linear_1 ;;
  l2 <~ torch.nn_Linear (w 2%nat) (b 2%nat) linear_1 linear_2 ;;
  l3 <~ torch.nn_Linear (w 3%nat) (b 3%nat) linear_2 10 ;;
  Ok (mkLitModel linear_2 learning_rate decay_factor l1 l2 l3 0).

Definition forward (self : LitModel) (x : tensor Q) : result (tensor Q) :=
  x <~ torch.view_rows x ;;
  x <~ torch.Linear_call (layer_1 self) x ;;
  let x := torch.relu x in
  x <~ torch.Linear_call (layer_2 self) x ;;
  let x := torch.relu x in
  x <~ torch.Linear_call (layer_3 self) x ;;
  Ok x.

(** [configure_optimizers]: the optimizer returned is the one the scheduler
    holds. *)
Definition configure_optimizers (self : LitModel)
  : result (list torch.Optimizer * list torch.LambdaLR) :=
  optimizer <~ torch.Adam (learning_rate self) ;;
  let scheduler :=
    torch.new_LambdaLR optimizer (fun epoch => decay_factor self ^ epoch) in
  Ok ([torch.optimizer scheduler], [scheduler]).

(** The training driver steps the scheduler once at the end of every
    epoch: the scheduler as it stands when epoch [e] starts. *)
Fixpoint scheduler_at_epoch (s : torch.LambdaLR) (e : nat) : torch.LambdaLR :=
  match e with
  | O => s
  | S e' => torch.step (scheduler_at_epoch s e')
  end.

(** The records the step hooks return. *)
Record prediction : Type := mkPrediction {
  img : tensor Q;
  name : string;
  description : string
}.

Record step_output : Type := mkOutput {
  loss : Q;
  y_true : list Z;
  y_pred : list Z;
  predictions : option prediction
}.

(** [results_dict["predictions"]]: the key is there for a validation step
    only. *)
Definition get_predictions (r : step_output) : result prediction :=
  match predictions r with
  | Some p => Ok p
  | None => Raise KeyError
  end.

(** [img[img < 0] = 0]. *)
Definition clamp_negative (v : Q) : Q :=
  if Qlt_le_dec v 0 then 0 else v.

(** The two lines of [test_step] that rescale a misclassified image:
    negative pixels become 0, then every pixel is divided by the greatest
    one. *)
Definition rescale (image : tensor Q) : result (tensor xq) :=
  let image := tmap clamp_negative image in
  m <~ np.amax (data image) ;;
  Ok (tmap (fun v => xdiv v m) image).

Section Hooks.

(** Functions of the framework whose values are not rational: the
    cross-entropy of a batch of scores against the labels (it may refuse
    its arguments), the softmax of a score vector, and the text a tensor
    entry is printed as. *)
Variable F_cross_entropy : tensor Q -> list Z -> result Q.
Variable F_softmax : list Q -> list Q.
Variable str_float : Q -> string.

Definition training_step (self : LitModel) (batch : tensor Q * list Z)
  : M step_output :=
  let '(x, y) := batch in
  y_hat <- lift (forward self x) ;;
  l <- lift (F_cross_entropy y_hat y) ;;
  emit (self_log "train/batch/loss" (Fin l)) ;;;
  let yt := y in
  yp <- lift (torch.argmax_axis1 y_hat) ;;
  acc <- lift (sklearn.accuracy_score yt yp) ;;
  emit (self_log "train/batch/acc" acc) ;;;
  ret (mkOutput l yt yp None).

(** The accumulation loop shared by the three epoch-end hooks. *)
Definition gather (outputs : list step_output) : list Q * list Z * list Z :=
  fold_left
    (fun acc results_dict =>
       let '(l, yt, yp) := acc in
       (np.append l [loss results_dict],
        np.append yt (y_true results_dict),
        np.append yp (y_pred results_dict)))
    outputs ([], [], []).

Definition training_epoch_end (self : LitModel) (outputs : list step_output)
  : M unit :=
  let '(l, yt, yp) := gather outputs in
  acc <- lift (sklearn.accuracy_score yt yp) ;;
  emit (self_log "train/epoch/loss" (np.mean l)) ;;;
  emit (self_log "train/epoch/acc" acc).

Definition validation_step (self : LitModel) (batch : tensor Q * list Z)
  : result step_output :=
  let '(x, y) := batch in
  y_hat <~ forward self x ;;
  l <~ F_cross_entropy y_hat y ;;
  let yt := y in
  yp <~ torch.argmax_axis1 y_hat ;;
  x0 <~ torch.select x 0 ;;
  let im := np.squeeze x0 in
  let im := tmap (fun v => v * 0.3081 + 0.1307) im in
  output <~ torch.select y_hat 0 ;;
  p0 <~ index yp 0 ;;
  let nm := ("pred: " ++ str_int p0)%string in
  t0 <~ index yt 0 ;;
  let desc_target := ("target: " ++ str_int t0)%string in
  let desc_classes :=
    String.concat newline
      (map (fun jp => ("class " ++ str_nat (fst jp) ++ ": "
                         ++ str_float (snd jp))%string)
           (combine (seq 0 (length (F_softmax (data output))))
                    (F_softmax (data output)))) in
  let descr := (desc_target ++ " " ++ newline ++ desc_classes)%string in
  Ok (mkOutput l yt yp (Some (mkPrediction im nm descr))).

(** The loop of [validation_epoch_end], which also collects the example
    predictions. *)
Fixpoint gather_val (outputs : list step_output)
    (acc : list Q * list Z * list Z * list prediction)
  : result (list Q * list Z * list Z * list prediction) :=
  match outputs with
  | [] => Ok acc
  | results_dict :: rest =>
      let '(l, yt, yp, image_preds) := acc in
      p <~ get_predictions results_dict ;;
      gather_val rest
        (np.append l [loss results_dict],
         np.append yt (y_true results_dict),
         np.append yp (y_pred results_dict),
         np.append image_preds [p])
  end.

Definition upload_prediction (epoch : nat) (d : prediction) : event :=
  experiment_log ("val/preds/epoch_" ++ str_nat epoch)
                 (tmap Fin (img d)) (Some (name d)) (Some (description d)).

Definition validation_epoch_end (self : LitModel) (outputs : list step_output)
  : M unit :=
  g <- lift (gather_val outputs ([], [], [], [])) ;;
  let '(l, yt, yp, image_preds) := g in
  acc <- lift (sklearn.accuracy_score yt yp) ;;
  emit (self_log "val/loss" (np.mean l)) ;;;
  emit (self_log "val/acc" acc) ;;;
  if (current_epoch self mod 5 =? 0)%nat
  then for_each image_preds
         (fun d => emit (upload_prediction (current_epoch self) d))
  else ret tt.

Definition test_step (self : LitModel) (batch : tensor Q * list Z)
  : M step_output :=
  let '(x, y) := batch in
  y_hat <- lift (forward self x) ;;
  l <- lift (F_cross_entropy y_hat y) ;;
  let yt := y in
  yp <- lift (torch.argmax_axis1 y_hat) ;;
  mask <- lift (np.not_equal yt yp) ;;
  for_each (np.where_ mask)
    (fun j =>
       xj <- lift (torch.select x j) ;;
       im <- lift (rescale (np.squeeze xj)) ;;
       pj <- lift (index yp j) ;;
       tj <- lift (index yt j) ;;
       emit (experiment_log "test/misclassified_images" im None
               (Some ("y_pred=" ++ str_int pj ++ ", y_true=" ++ str_int tj)%string))) ;;;
  ret (mkOutput l yt yp None).

Definition test_epoch_end (self : LitModel) (outputs : list step_output)
  : M unit :=
  let '(l, yt, yp) := gather outputs in
  acc <- lift (sklearn.accuracy_score yt yp) ;;
  emit (self_log "test/loss" (np.mean l)) ;;;
  emit (self_log "test/acc" acc).

End Hooks.

(** ** [MNISTDataModule] *)

(** The dataset object: the labelled byte images it reads from disk and
    the transform it applies on access. *)
Record MNIST : Type := mkMNIST {
  examples : list (tensor Z * Z);
  transform : tensor Z -> result (tensor Q)
}.

Definition MNIST_len (d : MNIST) : nat := length (examples d).

Definition MNIST_getitem (d : MNIST) (i : nat) : result (tensor Q * Z) :=
  e <~ index (examples d) i ;;
  x <~ transform d (fst e) ;;
  Ok (x, snd e).

Definition Subset_getitem (s : data.Subset MNIST) (i : nat)
  : result (tensor Q * Z) :=
  j <~ index (data.indices s) i ;;
  MNIST_getitem (data.dataset s) j.

(** [default_collate] on a list of (image, label) items. *)
Definition collate (items : list (tensor Q * Z)) : result (tensor Q * list Z) :=
  x <~ torch.stack (map fst items) ;;
  Ok (x, map snd items).

Record MNISTDataModule : Type := mkDataModule {
  batch_size : Z;
  normalization_vector : list Q * list Q;
  mnist_train : option (data.Subset MNIST);
  mnist_val : option (data.Subset MNIST);
  mnist_test : option MNIST
}.

Definition MNISTDataModule_init (batch_size : Z)
    (normalization_vector : list Q * list Q) : MNISTDataModule :=
  mkDataModule batch_size normalization_vector None None None.

(** [transforms.Compose([ToTensor(), Normalize(v[0], v[1])])]. *)
Definition compose_transform (v : list Q * list Q) (image : tensor Z)
  : result (tensor Q) :=
  transforms.Normalize (fst v) (snd v) (transforms.ToTensor image).

Section Setup.

(** What [prepare_data] left in the working directory (the training and
    the held-out files), and the permutation [random_split] draws. *)
Variable train_files : list (tensor Z * Z).
Variable test_files : list (tensor Z * Z).
Variable randperm : nat -> list nat.

Definition setup (self : MNISTDataModule) (stage : string)
  : result MNISTDataModule :=
  let tr := compose_transform (normalization_vector self) in
  self <~ (if String.eqb stage "fit"
           then
             let full := mkMNIST train_files tr in
             parts <~ data.random_split MNIST_len randperm full
                        [55000; 5000]%N ;;
             match parts with
             | [a; b] =>
                 Ok (mkDataModule (batch_size self) (normalization_vector self)
                                  (Some a) (Some b) (mnist_test self))
             | _ => Raise ValueError
             end
           else Ok self) ;;
  if String.eqb stage "test"
  then Ok (mkDataModule (batch_size self) (normalization_vector self)
                        (mnist_train self) (mnist_val self)
                        (Some (mkMNIST test_files tr)))
  else Ok self.

End Setup.

(** ** The script *)

(** [dm = MNISTDataModule(normalization_vector=((0.1307,), (0.3081,)), ...)]. *)
Definition dm (batch_size : Z) : MNISTDataModule :=
  MNISTDataModule_init batch_size ([0.1307], [0.3081]).

(** ** Data loading *)

Fixpoint mapM {A B : Type} (f : A -> result B) (l : list A) : result (list B) :=
  match l with
  | [] => Ok []
  | a :: t => b <~ f a ;; bs <~ mapM f t ;; Ok (b :: bs)
  end.

(** One batch of a data loader: the items at the given indices, collated. *)
Definition fetch (ds : MNIST) (idxs : list nat) : result (tensor Q * list Z) :=
  items <~ mapM (MNIST_getitem ds) idxs ;;
  collate items.

(** The data set as the data module of the script reads it. *)
Definition script_dataset (files : list (tensor Z * Z)) (batch_size : Z) : MNIST :=
  mkMNIST files (compose_transform (normalization_vector (dm batch_size))).

(** ** Data loaders and the confusion matrix *)

(** [DataLoader(dataset, batch_size=..., num_workers=...)].  The
    constructor refuses a negative number of workers and a batch size that
    is not positive; it does not look at the dataset. *)
Record DataLoader (D : Type) : Type := mkDataLoader {
  dl_dataset : D;
  dl_batch_size : Z;
  dl_num_workers : Z
}.

Arguments mkDataLoader {D} dl_dataset dl_batch_size dl_num_workers.
Arguments dl_dataset {D} d.
Arguments dl_batch_size {D} d.
Arguments dl_num_workers {D} d.

Definition new_DataLoader {D : Type} (dataset : D) (batch_size num_workers : Z)
  : result (DataLoader D) :=
  if (num_workers <? 0)%Z then Raise ValueError
  else if (batch_size <=? 0)%Z then Raise ValueError
  else Ok (mkDataLoader dataset batch_size num_workers).

Definition train_dataloader (self : MNISTDataModule)
  : result (DataLoader (option (data.Subset MNIST))) :=
  new_DataLoader (mnist_train self) (batch_size self) 4.

Definition val_dataloader (self : MNISTDataModule)
  : result (DataLoader (option (data.Subset MNIST))) :=
  new_DataLoader (mnist_val self) (batch_size self) 4.

Definition test_dataloader (self : MNISTDataModule)
  : result (DataLoader (option MNIST)) :=
  new_DataLoader (mnist_test self) (batch_size self) 1.

(** The loop of [BatchSampler] (nothing dropped): indices are collected
    into [batch], which is handed out when it holds [batch_size] of them,
    and a last, shorter batch is handed out if it is not empty. *)
Fixpoint batch_sampler (batch_size : nat) (sampler : list nat) (batch : list nat)
  : list (list nat) :=
  match sampler with
  | [] => if (0 <? length batch)%nat then [batch] else []
  | idx :: rest =>
      let batch := batch ++ [idx] in
      if (length batch =? batch_size)%nat
      then batch :: batch_sampler batch_size rest []
      else batch_sampler batch_size rest batch
  end.

(** The index batches of a loader without shuffling over a data set of
    [n] examples. *)
Definition index_batches (n : nat) (batch_size : Z) : list (list nat) :=
  batch_sampler (Z.to_nat batch_size) (seq 0 n) [].

(** What iterating a loader yields, batch by batch, when its data set is
    set: the items at the indices of the batch, collated.  (A loader whose
    data set is [None] cannot be iterated; that case is not embedded.) *)
Definition loader_batches {D : Type} (len : D -> nat)
    (getitem : D -> nat -> result (tensor Q * Z)) (ds : D) (batch_size : Z)
  : list (result (tensor Q * list Z)) :=
  map (fun idxs => items <~ mapM (getitem ds) idxs ;; collate items)
      (index_batches (len ds) batch_size).

Definition Subset_len (s : data.Subset MNIST) : nat := length (data.indices s).

(** The loop of [log_confusion_matrix] over the batches of the test
    loader: the true and the predicted labels, batch after batch. *)
Definition confusion_labels (lit_model : LitModel)
    (test_data : list (result (tensor Q * list Z))) : result (list Z * list Z) :=
  fold_left
    (fun acc batch =>
       a <~ acc ;;
       xy <~ batch ;;
       y_hat <~ forward lit_model (fst xy) ;;
       yh <~ torch.argmax_axis1 y_hat ;;
       Ok (np.append (fst a) (snd xy), np.append (snd a) yh))
    test_data (Ok ([], [])).

(** * Notions the properties are stated with *)

(** The agreement of two labels, as a number. *)
Definition agree (u v : Z) : Q := if Z.eqb u v then 1 else 0.

(** A record of a step hook has as many predicted as true labels. *)
Definition well_paired (r : step_output) : Prop :=
  length (y_true r) = length (y_pred r).

(** The labels of an epoch, batch after batch. *)
Definition all_true (outputs : list step_output) : list Z :=
  concat (map y_true outputs).

Definition all_pred (outputs : list step_output) : list Z :=
  concat (map y_pred outputs).

(** A layer of the given widths whose parameters have the shapes torch
    gives them. *)
Definition wf_Linear (l : torch.Linear) (n_in n_out : nat) : Prop :=
  torch.in_features l = n_in /\
  torch.out_features l = n_out /\
  shape (torch.weight l) = [n_out; n_in] /\
  wf_tensor (torch.weight l) /\
  shape (torch.bias l) = [n_out] /\
  wf_tensor (torch.bias l).

(** The network of the script: 784 inputs, two hidden widths, 10 scores. *)
Definition wf_model (self : LitModel) (h1 h2 : nat) : Prop :=
  wf_Linear (layer_1 self) 784 h1 /\
  wf_Linear (layer_2 self) h1 h2 /\
  wf_Linear (layer_3 self) h2 10.

(** What the network computes on one flattened image. *)
Definition scores (self : LitModel) (image : list Q) : list Q :=
  torch.affine (layer_3 self)
    (map (Qmax 0)
       (torch.affine (layer_2 self)
          (map (Qmax 0) (torch.affine (layer_1 self) image)))).

(** The label the network predicts for a flattened image. *)
Definition predicted (self : LitModel) (image : list Q) : Z :=
  Z.of_nat (torch.argmax_row (scores self image)).

(** The 784 pixels of image [j] of a batch. *)
Definition pixels (x : tensor Q) (j : nat) : list Q :=
  firstn 784 (skipn (j * 784) (data x)).

(** The greatest entry of a non-empty array. *)
Definition greatest (l : list Q) : Q :=
  match l with
  | [] => 0
  | v :: t => fold_left Qmax t v
  end.

(** A grey image of 28 by 28 bytes. *)
Definition grey28 (image : tensor Z) : Prop :=
  shape image = [28; 28]%nat /\ wf_tensor image.

(** The normalization of the script on one pixel, and what
    [validation_step] applies to the pixels of its example image. *)
Definition normalize (v : Q) : Q := (v - 0.1307) / 0.3081.

Definition denormalize (v : Q) : Q := v * 0.3081 + 0.1307.

(** The image of example [i] as the data set hands it out, flattened, and
    its label. *)
Definition normalized_pixels (files : list (tensor Z * Z)) (i : nat) : list Q :=
  map normalize
      (data (transforms.ToTensor (fst (nth i files (mkTensor [] [], 0%Z))))).

Definition label_of (files : list (tensor Z * Z)) (i : nat) : Z :=
  snd (nth i files (mkTensor [] [], 0%Z)).

(** The key an event goes under. *)
Definition event_key (e : event) : string :=
  match e with
  | self_log k _ => k
  | experiment_log k _ _ _ => k
  end.

(** The bytes of a grey image. *)
Definition bytes (image : tensor Z) : Prop :=
  Forall (fun p => (0 <= p <= 255)%Z) (data image).

(** A loader without shuffling over [len] examples walks through them in
    order: its index batches put end to end are [0 .. len - 1], [len] is
    the expected size, every batch holds between 1 and [batch_size]
    positions, all but the last exactly [batch_size], and there are
    ceil(len / batch_size) batches. *)
Definition walks_in_order (expected batch_size : Z) (len : nat) : Prop :=
  let bl := index_batches len batch_size in
  concat bl = seq 0 len /\
  Z.of_nat len = expected /\
  Forall (fun b => (1 <= Z.of_nat (length b) <= batch_size)%Z) bl /\
  Forall (fun b => Z.of_nat (length b) = batch_size) (removelast bl) /\
  Z.of_nat (length bl) = ((expected + batch_size - 1) / batch_size)%Z.

(** ** Concrete inputs *)

Definition example_prediction : prediction :=
  mkPrediction (mkTensor [1; 2]%nat [0.5; 1]) "pred: 7" "target: 7".

Definition example_output : step_output :=
  mkOutput 0.25 [7]%Z [7]%Z (Some example_prediction).

(** A model without parameters, in epoch [e]. *)
Definition model_at_epoch (e : nat) : LitModel :=
  let l := torch.mkLinear 0 0 (mkTensor [] []) (mkTensor [] []) in
  mkLitModel 0 1 1 l l l e.

Definition dark_image : tensor Q := mkTensor [1; 2]%nat [-0.5; -0.25].

Definition bright_image : tensor Q := mkTensor [3]%nat [-1; 2; 4].

(** One black image. *)
Definition blank_batch : tensor Q :=
  mkTensor [1; 1; 28; 28]%nat (repeat 0 784).

(** A uniformly grey image, labelled 7. *)
Definition grey_file : tensor Z * Z :=
  (mkTensor [28; 28]%nat (repeat 128%Z 784), 7%Z).

Definition flat_batch : tensor Q := mkTensor [2; 784]%nat (repeat 0.5 1568).

Definition small_batch : tensor Q := mkTensor [2; 1; 27; 28]%nat (repeat 0.5 1512).


Definition light_file : tensor Z * Z :=
  (mkTensor [28; 28]%nat (repeat 250%Z 784), 1%Z).

Definition black_image : tensor Z := mkTensor [28; 28]%nat (repeat 0%Z 784).

Definition two_images : tensor Q :=
  mkTensor [2; 1; 28; 28]%nat (repeat 0.5 1568).

(** * Properties *)

(** ** Accuracy *)

Lemma length_map2 {A B C : Type} (f : A -> B -> C) (u : list A) (v : list B) :
  length u = length v -> length (map2 f u v) = length u.
Proof.
  revert v; induction u as [|a u IH]; intros [|b v] H; simpl in *;
    try discriminate; auto.
Qed.

Lemma Qsum_agree_same (l : list Z) :
  Qsum (map2 agree l l) == inject_Z (Z.of_nat (length l)).
Proof.
  induction l as [|a l IH].
  - reflexivity.
  - cbn [map2 Qsum fold_right length]. fold (Qsum (map2 agree l l)).
    unfold agree at 1. rewrite Z.eqb_refl, IH.
    rewrite Nat2Z.inj_succ, <- Z.add_1_l, inject_Z_plus. reflexivity.
Qed.

Lemma Qsum_agree_nowhere (u v : list Z) :
  (forall i a b, nth_error u i = Some a -> nth_error v i = Some b -> a <> b) ->
  Qsum (map2 agree u v) == 0.
Proof.
  revert v; induction u as [|a u IH]; intros [|b v] H; try reflexivity.
  cbn [map2 Qsum fold_right]. fold (Qsum (map2 agree u v)).
  unfold agree at 1.
  destruct (Z.eqb_spec a b) as [e|_].
  - exfalso. exact (H 0%nat a b eq_refl eq_refl e).
  - rewrite IH; [reflexivity|].
    intros i x y Hx Hy. exact (H (S i) x y Hx Hy).
Qed.

Lemma count_nonzero (n : nat) :
  n <> 0%nat -> Qeq_bool (inject_Z (Z.of_nat n)) 0 = false.
Proof.
  intros H. destruct (Qeq_bool _ _) eqn:E; [|reflexivity].
  apply Qeq_bool_eq in E. unfold Qeq in E. simpl in E. lia.
Qed.

Lemma xdiv_finite (a b : Q) :
  Qeq_bool b 0 = false -> xdiv a b = Fin (a / b).
Proof. intros H; unfold xdiv; now rewrite H. Qed.

(** C7.  On non-empty label arrays of one length, [accuracy_score] is 1
    when the two arrays are identical and 0 when they agree at no
    position. *)
Theorem accuracy_identical_and_disjoint (yt yp : list Z) :
  yt <> [] -> length yt = length yp ->
  (yt = yp ->
   exists q, sklearn.accuracy_score yt yp = Ok (Fin q) /\ q == 1) /\
  ((forall i a b, nth_error yt i = Some a -> nth_error yp i = Some b -> a <> b) ->
   exists q, sklearn.accuracy_score yt yp = Ok (Fin q) /\ q == 0).
Proof.
  intros Hne Hlen.
  assert (Hn : length yt <> 0%nat) by (destruct yt; [congruence | discriminate]).
  unfold sklearn.accuracy_score, np.mean.
  rewrite Hlen, Nat.eqb_refl.
  change (fun u v : Z => if (u =? v)%Z then 1 else 0) with agree.
  rewrite length_map2 by (now rewrite Hlen).
  rewrite xdiv_finite by (now apply count_nonzero).
  split.
  - intros ->. eexists; split; [reflexivity|].
    rewrite Qsum_agree_same.
    apply Qmult_inv_r. intros E.
    apply Qeq_bool_iff in E. rewrite count_nonzero in E by exact Hn. discriminate.
  - intros Hd. eexists; split; [reflexivity|].
    rewrite (Qsum_agree_nowhere _ _ Hd). unfold Qdiv. apply Qmult_0_l.
Qed.

Lemma accuracy_identical_and_disjoint_witness :
  (exists q, sklearn.accuracy_score [3; 1; 4]%Z [3; 1; 4]%Z = Ok (Fin q) /\ q == 1) /\
  (exists q, sklearn.accuracy_score [3; 1; 4]%Z [1; 4; 3]%Z = Ok (Fin q) /\ q == 0).
Proof.
  split.
  - apply (accuracy_identical_and_disjoint [3; 1; 4]%Z [3; 1; 4]%Z);
      [discriminate | reflexivity | reflexivity].
  - apply (accuracy_identical_and_disjoint [3; 1; 4]%Z [1; 4; 3]%Z);
      [discriminate | reflexivity |].
    intros [|[|[|i]]] a b Ha Hb; simpl in Ha, Hb;
      try (destruct i; discriminate);
      injection Ha as <-; injection Hb as <-; discriminate.
Defined.

Lemma accuracy_score_total (yt yp : list Z) :
  length yt = length yp ->
  sklearn.accuracy_score yt yp = Ok (np.mean (map2 agree yt yp)).
Proof.
  intros H. unfold sklearn.accuracy_score. now rewrite H, Nat.eqb_refl.
Qed.

(** ** The hook monad *)

Lemma for_each_emit {A : Type} (f : A -> event) (l : list A) (s : list event) :
  for_each l (fun a => emit (f a)) s = (Ok tt, s ++ map f l).
Proof.
  revert s; induction l as [|a l IH]; intros s; simpl.
  - unfold ret. now rewrite app_nil_r.
  - unfold bind, emit at 1. rewrite IH, <- app_assoc. reflexivity.
Qed.

(** ** Aggregation at the end of an epoch *)

Lemma gather_from (outputs : list step_output) (l : list Q) (yt yp : list Z) :
  fold_left
    (fun acc results_dict =>
       let '(l, yt, yp) := acc in
       (np.append l [loss results_dict],
        np.append yt (y_true results_dict),
        np.append yp (y_pred results_dict)))
    outputs (l, yt, yp)
  = (l ++ map loss outputs, yt ++ all_true outputs, yp ++ all_pred outputs).
Proof.
  revert l yt yp; induction outputs as [|r outputs IH]; intros l yt yp.
  - cbn. now rewrite !app_nil_r.
  - cbn [fold_left]. unfold np.append at 1 2 3. rewrite IH.
    unfold all_true, all_pred. cbn [map concat].
    now rewrite <- !app_assoc.
Qed.

Lemma gather_spec (outputs : list step_output) :
  gather outputs = (map loss outputs, all_true outputs, all_pred outputs).
Proof. unfold gather. now rewrite gather_from. Qed.

Lemma gather_val_from (outputs : list step_output) (preds : list prediction) :
  map predictions outputs = map Some preds ->
  forall l yt yp ip,
    gather_val outputs (l, yt, yp, ip)
    = Ok (l ++ map loss outputs, yt ++ all_true outputs,
          yp ++ all_pred outputs, ip ++ preds).
Proof.
  revert preds; induction outputs as [|r outputs IH]; intros [|p preds] H;
    try discriminate; intros l yt yp ip.
  - cbn. now rewrite !app_nil_r.
  - cbn [map] in H. injection H as Hp Hrest.
    cbn [gather_val]. unfold get_predictions. rewrite Hp. cbn [rbind].
    unfold np.append. rewrite (IH preds Hrest).
    unfold all_true, all_pred. cbn [map concat].
    now rewrite <- !app_assoc.
Qed.

Lemma well_paired_all (outputs : list step_output) :
  Forall well_paired outputs ->
  length (all_true outputs) = length (all_pred outputs).
Proof.
  induction 1 as [|r outputs Hr _ IH]; [reflexivity|].
  unfold all_true, all_pred in *. cbn [map concat].
  rewrite !length_app. unfold well_paired in Hr. lia.
Qed.

Lemma mean_nonempty (l : list Q) :
  l <> [] ->
  np.mean l = Fin (Qsum l / inject_Z (Z.of_nat (length l))).
Proof.
  intros H. unfold np.mean. apply xdiv_finite, count_nonzero.
  destruct l; [congruence | discriminate].
Qed.

(** What [training_epoch_end] and [test_epoch_end] send, in full. *)
Lemma epoch_end_run (k_loss k_acc : string) (outputs : list step_output)
    (s : list event) :
  Forall well_paired outputs ->
  (let '(l, yt, yp) := gather outputs in
   acc <- lift (sklearn.accuracy_score yt yp) ;;
   emit (self_log k_loss (np.mean l)) ;;;
   emit (self_log k_acc acc)) s
  = (Ok tt, s ++ [self_log k_loss (np.mean (map loss outputs));
                  self_log k_acc
                    (np.mean (map2 agree (all_true outputs) (all_pred outputs)))]).
Proof.
  intros Hw. rewrite gather_spec.
  unfold bind, lift, emit.
  rewrite accuracy_score_total by (now apply well_paired_all).
  now rewrite <- app_assoc.
Qed.

(** What [validation_epoch_end] sends, in full. *)
Lemma validation_epoch_end_run (self : LitModel) (outputs : list step_output)
    (preds : list prediction) (s : list event) :
  Forall well_paired outputs ->
  map predictions outputs = map Some preds ->
  validation_epoch_end self outputs s
  = (Ok tt,
     s ++ [self_log "val/loss" (np.mean (map loss outputs));
           self_log "val/acc"
             (np.mean (map2 agree (all_true outputs) (all_pred outputs)))]
       ++ (if (current_epoch self mod 5 =? 0)%nat
           then map (upload_prediction (current_epoch self)) preds
           else [])).
Proof.
  intros Hw Hp. unfold validation_epoch_end.
  unfold bind at 1, lift at 1.
  rewrite (gather_val_from outputs preds Hp). cbn [app].
  unfold bind at 1, lift at 1.
  rewrite accuracy_score_total by (now apply well_paired_all).
  unfold bind at 1, emit at 1. unfold bind at 1, emit at 1.
  destruct (current_epoch self mod 5 =? 0)%nat.
  - rewrite for_each_emit. now rewrite <- !app_assoc.
  - unfold ret. now rewrite <- !app_assoc.
Qed.

(** C6.  For a non-empty sequence of per-batch records, the epoch-end
    hooks log the mean of the per-batch losses and the accuracy of the
    concatenated true labels against the concatenated predicted labels:
    under [train/epoch/loss] and [train/epoch/acc] for training, under
    [test/loss] and [test/acc] for test, under [val/loss] and [val/acc]
    for validation. *)
Theorem epoch_end_aggregates (self : LitModel) (outputs : list step_output)
    (s : list event) :
  outputs <> [] ->
  Forall well_paired outputs ->
  exists acc,
    sklearn.accuracy_score (concat (map y_true outputs))
                           (concat (map y_pred outputs)) = Ok acc /\
    let mean_loss :=
      Fin (Qsum (map loss outputs) / inject_Z (Z.of_nat (length outputs))) in
    training_epoch_end self outputs s
    = (Ok tt, s ++ [self_log "train/epoch/loss" mean_loss;
                    self_log "train/epoch/acc" acc]) /\
    test_epoch_end self outputs s
    = (Ok tt, s ++ [self_log "test/loss" mean_loss;
                    self_log "test/acc" acc]) /\
    (forall preds, map predictions outputs = map Some preds ->
       exists uploads,
         validation_epoch_end self outputs s
         = (Ok tt, s ++ [self_log "val/loss" mean_loss;
                         self_log "val/acc" acc] ++ uploads)).
Proof.
  intros Hne Hw.
  exists (np.mean (map2 agree (all_true outputs) (all_pred outputs))).
  split; [apply accuracy_score_total, well_paired_all, Hw|].
  cbv zeta.
  assert (Hm : np.mean (map loss outputs)
               = Fin (Qsum (map loss outputs)
                      / inject_Z (Z.of_nat (length outputs)))).
  { rewrite mean_nonempty, length_map; [reflexivity|].
    destruct outputs; [congruence | discriminate]. }
  rewrite <- Hm.
  split; [|split].
  - exact (epoch_end_run "train/epoch/loss" "train/epoch/acc" outputs s Hw).
  - exact (epoch_end_run "test/loss" "test/acc" outputs s Hw).
  - intros preds Hp. eexists.
    exact (validation_epoch_end_run self outputs preds s Hw Hp).
Qed.

(** C4.  [validation_epoch_end] always logs [val/loss] and [val/acc]; the
    collected example predictions are sent, each as an image under
    [val/preds/epoch_{n}] with its name and description, when the epoch
    index is a multiple of 5, and nothing more is sent otherwise. *)
Theorem validation_uploads_every_fifth_epoch (self : LitModel)
    (outputs : list step_output) (preds : list prediction) (s : list event) :
  Forall well_paired outputs ->
  map predictions outputs = map Some preds ->
  exists l acc uploads,
    validation_epoch_end self outputs s
    = (Ok tt, s ++ [self_log "val/loss" l; self_log "val/acc" acc] ++ uploads) /\
    ((current_epoch self mod 5 = 0)%nat ->
     uploads
     = map (fun d =>
              experiment_log
                ("val/preds/epoch_" ++ str_nat (current_epoch self))
                (tmap Fin (img d)) (Some (name d)) (Some (description d)))
           preds) /\
    ((current_epoch self mod 5 <> 0)%nat -> uploads = []) /\
    (preds <> [] -> (uploads <> [] <-> (current_epoch self mod 5 = 0)%nat)).
Proof.
  intros Hw Hp.
  do 3 eexists. split.
  - exact (validation_epoch_end_run self outputs preds s Hw Hp).
  - destruct (Nat.eqb_spec (current_epoch self mod 5) 0) as [E|E].
    + split; [reflexivity|]. split; [congruence|].
      intros Hne. split; [auto|]. intros _.
      destruct preds; [congruence | discriminate].
    + split; [congruence|]. split; [reflexivity|].
      intros _. split; congruence.
Qed.

Lemma epoch_end_aggregates_witness :
  exists acc,
    sklearn.accuracy_score (concat (map y_true [example_output]))
                           (concat (map y_pred [example_output])) = Ok acc /\
    let mean_loss :=
      Fin (Qsum (map loss [example_output])
           / inject_Z (Z.of_nat (length [example_output]))) in
    training_epoch_end (model_at_epoch 10) [example_output] []
    = (Ok tt, [] ++ [self_log "train/epoch/loss" mean_loss;
                     self_log "train/epoch/acc" acc]) /\
    test_epoch_end (model_at_epoch 10) [example_output] []
    = (Ok tt, [] ++ [self_log "test/loss" mean_loss;
                     self_log "test/acc" acc]) /\
    (forall preds, map predictions [example_output] = map Some preds ->
       exists uploads,
         validation_epoch_end (model_at_epoch 10) [example_output] []
         = (Ok tt, [] ++ [self_log "val/loss" mean_loss;
                          self_log "val/acc" acc] ++ uploads)).
Proof.
  apply (epoch_end_aggregates (model_at_epoch 10) [example_output] []).
  - discriminate.
  - repeat constructor.
Defined.

Lemma validation_uploads_every_fifth_epoch_witness :
  exists l acc uploads,
    validation_epoch_end (model_at_epoch 10) [example_output] []
    = (Ok tt, [] ++ [self_log "val/loss" l; self_log "val/acc" acc] ++ uploads) /\
    ((current_epoch (model_at_epoch 10) mod 5 = 0)%nat ->
     uploads
     = map (fun d =>
              experiment_log
                ("val/preds/epoch_" ++ str_nat (current_epoch (model_at_epoch 10)))
                (tmap Fin (img d)) (Some (name d)) (Some (description d)))
           [example_prediction]) /\
    ((current_epoch (model_at_epoch 10) mod 5 <> 0)%nat -> uploads = []) /\
    ([example_prediction] <> [] ->
     (uploads <> [] <-> (current_epoch (model_at_epoch 10) mod 5 = 0)%nat)).
Proof.
  apply (validation_uploads_every_fifth_epoch
           (model_at_epoch 10) [example_output] [example_prediction] []).
  - repeat constructor.
  - reflexivity.
Defined.

(** The key of the upload, on two epochs. *)
Example upload_key_epoch_10 :
  validation_epoch_end (model_at_epoch 10) [example_output] []
  = (Ok tt,
     [self_log "val/loss" (Fin (0.25 + 0 / 1)) ;
      self_log "val/acc" (Fin ((1 + 0) / 1));
      experiment_log "val/preds/epoch_10"
        (mkTensor [1; 2]%nat [Fin 0.5; Fin 1])
        (Some "pred: 7"%string) (Some "target: 7"%string)]).
Proof. reflexivity. Qed.

Example no_upload_epoch_12 :
  validation_epoch_end (model_at_epoch 12) [example_output] []
  = (Ok tt,
     [self_log "val/loss" (Fin (0.25 + 0 / 1)) ;
      self_log "val/acc" (Fin ((1 + 0) / 1))]).
Proof. reflexivity. Qed.

(** ** Rescaling a misclassified image *)

Lemma Qmax_cases (a b : Q) : Qmax a b = a \/ Qmax a b = b.
Proof.
  unfold Qmax, GenericMinMax.gmax. destruct (a ?= b); auto.
Qed.

Lemma fold_Qmax_in (t : list Q) (v : Q) : In (fold_left Qmax t v) (v :: t).
Proof.
  revert v; induction t as [|a t IH]; intros v; cbn [fold_left].
  - now left.
  - destruct (IH (Qmax v a)) as [E|E].
    + rewrite <- E. destruct (Qmax_cases v a) as [-> | ->]; [left | right; left]; reflexivity.
    + right; right; exact E.
Qed.

Lemma fold_Qmax_lower (t : list Q) (v : Q) : v <= fold_left Qmax t v.
Proof.
  revert v; induction t as [|a t IH]; intros v; cbn [fold_left].
  - apply Qle_refl.
  - eapply Qle_trans; [apply Q.le_max_l | apply IH].
Qed.

Lemma fold_Qmax_upper (t : list Q) (v x : Q) :
  In x (v :: t) -> x <= fold_left Qmax t v.
Proof.
  revert v; induction t as [|a t IH]; intros v H; cbn [fold_left].
  - destruct H as [E|[]]. subst; apply Qle_refl.
  - destruct H as [E|[E|H]].
    + subst. eapply Qle_trans; [apply Q.le_max_l | apply fold_Qmax_lower].
    + subst. eapply Qle_trans; [apply Q.le_max_r | apply fold_Qmax_lower].
    + apply IH. now right.
Qed.

Lemma amax_spec (arr : list Q) :
  arr <> [] ->
  exists m, np.amax arr = Ok m /\ In m arr /\ forall x, In x arr -> x <= m.
Proof.
  destruct arr as [|v t]; [congruence|]. intros _.
  exists (fold_left Qmax t v). split; [reflexivity|]. split.
  - apply fold_Qmax_in.
  - intros x Hx. now apply fold_Qmax_upper.
Qed.

Lemma clamp_negative_nonneg (v : Q) : 0 <= clamp_negative v.
Proof.
  unfold clamp_negative. destruct (Qlt_le_dec v 0); [apply Qle_refl | assumption].
Qed.

Lemma clamp_negative_positive (v : Q) : 0 < v -> clamp_negative v = v.
Proof.
  intros H. unfold clamp_negative. destruct (Qlt_le_dec v 0) as [L|_]; [|reflexivity].
  exfalso. apply (Qlt_irrefl 0). eapply Qlt_trans; eassumption.
Qed.

Lemma clamp_negative_nonpositive (v : Q) : v <= 0 -> clamp_negative v == 0.
Proof.
  intros H. unfold clamp_negative. destruct (Qlt_le_dec v 0) as [_|L]; [reflexivity|].
  now apply Qle_antisym.
Qed.

(** C10.  The rescaling in [test_step] sets the negative pixels to 0 and
    divides every pixel by the greatest one, with no test of the divisor.
    When some pixel is positive the divisor is positive and every result
    lies between 0 and 1; when no pixel is positive the divisor is 0 and
    every result is the [NaN] of [0/0]. *)
Theorem rescale_range (image : tensor Q) :
  data image <> [] ->
  exists m,
    np.amax (map clamp_negative (data image)) = Ok m /\
    rescale image
    = Ok (mkTensor (shape image)
            (map (fun v => xdiv (clamp_negative v) m) (data image))) /\
    ((exists v, In v (data image) /\ 0 < v) ->
     0 < m /\
     forall v, In v (data image) ->
       exists q, xdiv (clamp_negative v) m = Fin q /\ 0 <= q <= 1) /\
    ((forall v, In v (data image) -> v <= 0) ->
     m == 0 /\
     forall v, In v (data image) -> xdiv (clamp_negative v) m = NaN).
Proof.
  intros Hne.
  destruct (amax_spec (map clamp_negative (data image))) as (m & Hm & Hin & Hub).
  { destruct (data image); [congruence | discriminate]. }
  exists m. split; [exact Hm|]. split.
  { unfold rescale, tmap. cbn [data shape]. rewrite Hm. cbn [rbind].
    now rewrite map_map. }
  assert (Hm0 : 0 <= m).
  { apply in_map_iff in Hin as (v & <- & _). apply clamp_negative_nonneg. }
  split.
  - intros (v & Hv & Hpos).
    assert (Hmpos : 0 < m).
    { eapply Qlt_le_trans; [exact Hpos|].
      rewrite <- (clamp_negative_positive v Hpos).
      apply Hub, in_map, Hv. }
    split; [exact Hmpos|].
    intros u Hu.
    assert (Hnz : Qeq_bool m 0 = false).
    { destruct (Qeq_bool m 0) eqn:E; [|reflexivity].
      apply Qeq_bool_eq in E. rewrite E in Hmpos.
      exfalso; exact (Qlt_irrefl 0 Hmpos). }
    exists (clamp_negative u / m). split; [now apply xdiv_finite|].
    split.
    + apply Qle_shift_div_l; [exact Hmpos|].
      rewrite Qmult_0_l. apply clamp_negative_nonneg.
    + apply Qle_shift_div_r; [exact Hmpos|].
      rewrite Qmult_1_l. apply Hub, in_map, Hu.
  - intros Hall.
    assert (Hz : m == 0).
    { apply in_map_iff in Hin as (v & <- & Hv).
      apply clamp_negative_nonpositive, Hall, Hv. }
    split; [exact Hz|].
    intros u Hu. unfold xdiv.
    rewrite (proj2 (Qeq_bool_iff m 0) Hz).
    now rewrite (proj2 (Qeq_bool_iff _ 0)
                   (clamp_negative_nonpositive u (Hall u Hu))).
Qed.

Lemma rescale_range_witness :
  (exists m,
     np.amax (map clamp_negative (data dark_image)) = Ok m /\
     m == 0 /\
     forall v, In v (data dark_image) -> xdiv (clamp_negative v) m = NaN) /\
  (exists m,
     np.amax (map clamp_negative (data bright_image)) = Ok m /\
     0 < m /\
     forall v, In v (data bright_image) ->
       exists q, xdiv (clamp_negative v) m = Fin q /\ 0 <= q <= 1).
Proof.
  split.
  - destruct (rescale_range dark_image) as (m & Em & _ & _ & H); [discriminate|].
    exists m. split; [exact Em|]. apply H.
    intros v [<-|[<-|[]]]; discriminate.
  - destruct (rescale_range bright_image) as (m & Em & _ & H & _); [discriminate|].
    exists m. split; [exact Em|]. apply H.
    exists 4. split; [right; right; left; reflexivity | reflexivity].
Defined.

(** An image with no positive pixel is rescaled to [NaN] pixels. *)
Example rescale_dark_image :
  rescale dark_image = Ok (mkTensor [1; 2]%nat [NaN; NaN]).
Proof. reflexivity. Qed.

Example rescale_bright_image :
  rescale bright_image
  = Ok (mkTensor [3]%nat [Fin (0 / 4); Fin (2 / 4); Fin (4 / 4)]).
Proof. reflexivity. Qed.

(** ** The forward pass *)

Lemma length_rows {A : Type} (n k : nat) (d : list A) : length (rows n k d) = n.
Proof. unfold rows. now rewrite length_map, length_seq. Qed.

Lemma rows_map {A B : Type} (g : A -> B) (n k : nat) (d : list A) :
  rows n k (map g d) = map (map g) (rows n k d).
Proof.
  unfold rows. rewrite map_map. apply map_ext. intros i.
  now rewrite skipn_map, firstn_map.
Qed.

Lemma rows_width {A : Type} (n k : nat) (d : list A) :
  length d = (n * k)%nat -> Forall (fun r => length r = k) (rows n k d).
Proof.
  intros H. unfold rows. apply Forall_forall. intros r Hr.
  apply in_map_iff in Hr as (i & <- & Hi). apply in_seq in Hi.
  rewrite length_firstn, length_skipn. nia.
Qed.

Lemma length_flat_map_const {A B : Type} (f : A -> list B) (k : nat) (rs : list A) :
  Forall (fun r => length (f r) = k) rs ->
  length (flat_map f rs) = (length rs * k)%nat.
Proof.
  induction 1 as [|r rs Hr _ IH]; [reflexivity|].
  cbn [flat_map length]. rewrite length_app, Hr, IH. lia.
Qed.

Lemma rows_flat_map {A B : Type} (f : A -> list B) (k : nat) (rs : list A) :
  Forall (fun r => length (f r) = k) rs ->
  rows (length rs) k (flat_map f rs) = map f rs.
Proof.
  induction 1 as [|r rs Hr Hrs IH]; [reflexivity|].
  unfold rows in *. cbn [length seq map flat_map].
  f_equal.
  - cbn [Nat.mul skipn]. rewrite firstn_app, Hr, Nat.sub_diag.
    cbn [firstn]. rewrite app_nil_r. apply firstn_all2. lia.
  - rewrite <- IH, <- seq_shift, map_map. apply map_ext. intros i.
    f_equal. cbn [Nat.mul]. rewrite <- Hr at 1.
    rewrite Nat.add_comm, <- skipn_skipn. f_equal.
    rewrite skipn_app, Nat.sub_diag, skipn_all. reflexivity.
Qed.

Lemma affine_length (l : torch.Linear) (n_in n_out : nat) (r : list Q) :
  wf_Linear l n_in n_out -> length (torch.affine l r) = n_out.
Proof.
  intros (_ & Ho & _ & _ & Hs & Hb). unfold torch.affine.
  unfold wf_tensor in Hb. rewrite Hs in Hb. cbn in Hb.
  rewrite length_map2; rewrite length_rows; lia.
Qed.

Lemma Linear_call_rows (l : torch.Linear) (n_in n_out n : nat) (x : tensor Q) :
  wf_Linear l n_in n_out ->
  shape x = [n; n_in] ->
  torch.Linear_call l x
  = Ok (mkTensor [n; n_out] (flat_map (torch.affine l) (rows n n_in (data x)))).
Proof.
  intros (Hi & Ho & _) Hs. unfold torch.Linear_call.
  rewrite Hs. cbn [rev app]. rewrite Hi, Nat.eqb_refl, Ho.
  cbn [numel fold_right]. now rewrite Nat.mul_1_r.
Qed.

Lemma view_rows_batch {A : Type} (x : tensor A) (n : nat) (s : list nat) :
  (1 <= n)%nat -> shape x = n :: s -> wf_tensor x ->
  torch.view_rows x = Ok (mkTensor [n; numel s] (data x)).
Proof.
  intros Hn Hs Hw. unfold torch.view_rows. rewrite Hs.
  unfold wf_tensor in Hw. rewrite Hs in Hw. cbn [numel fold_right] in Hw.
  fold (numel s) in Hw. rewrite Hw.
  destruct (Nat.eqb_spec n 0) as [E|_]; [lia|].
  rewrite (Nat.mul_comm n), Nat.Div0.mod_mul, Nat.div_mul by lia.
  reflexivity.
Qed.

(** The forward pass of a well-shaped network on a batch of [n] images:
    every image is flattened and mapped, on its own, to its 10 scores. *)
Lemma forward_run (self : LitModel) (h1 h2 n : nat) (x : tensor Q) :
  wf_model self h1 h2 ->
  (1 <= n)%nat -> shape x = [n; 1; 28; 28]%nat -> wf_tensor x ->
  forward self x
  = Ok (mkTensor [n; 10]%nat (flat_map (scores self) (rows n 784 (data x)))).
Proof.
  intros (W1 & W2 & W3) Hn Hs Hw.
  assert (Hlen : length (data x) = (n * 784)%nat).
  { unfold wf_tensor in Hw. rewrite Hs in Hw. cbn [numel fold_right] in Hw. lia. }
  unfold forward.
  rewrite (view_rows_batch x n [1; 28; 28]%nat Hn Hs Hw). cbn [rbind].
  change (numel [1; 28; 28]%nat) with 784%nat.
  erewrite (Linear_call_rows _ 784 h1 n); [|exact W1|reflexivity].
  cbn [rbind data].
  erewrite (Linear_call_rows _ h1 h2 n); [|exact W2|reflexivity].
  cbn [rbind data torch.relu shape].
  erewrite (Linear_call_rows _ h2 10 n); [|exact W3|reflexivity].
  cbn [rbind data]. do 2 f_equal.
  rewrite !rows_map.
  assert (R1 : Forall (fun r => length (torch.affine (layer_1 self) r) = h1)
                 (rows n 784 (data x))).
  { apply Forall_forall. intros r _. now apply (affine_length _ 784). }
  pose proof (rows_flat_map (torch.affine (layer_1 self)) h1 _ R1) as E1.
  rewrite length_rows in E1. rewrite E1. clear E1.
  cbn [data torch.relu]. rewrite rows_map.
  assert (R2 : Forall (fun r => length (torch.affine (layer_2 self) r) = h2)
                 (map (map (Qmax 0))
                      (map (torch.affine (layer_1 self)) (rows n 784 (data x))))).
  { apply Forall_forall. intros r _. now apply (affine_length _ h1). }
  pose proof (rows_flat_map (torch.affine (layer_2 self)) h2 _ R2) as E2.
  rewrite !length_map, length_rows in E2. rewrite E2. clear E2.
  rewrite !flat_map_concat_map, !map_map. reflexivity.
Qed.

Lemma nn_Linear_wf (w : nat -> nat -> Q) (b : nat -> Q) (n_in n_out : Z) :
  (0 <= n_in)%Z -> (0 <= n_out)%Z ->
  exists l, torch.nn_Linear w b n_in n_out = Ok l /\
            wf_Linear l (Z.to_nat n_in) (Z.to_nat n_out).
Proof.
  intros Hi Ho. unfold torch.nn_Linear.
  destruct (Z.ltb_spec n_in 0) as [?|_]; [lia|].
  destruct (Z.ltb_spec n_out 0) as [?|_]; [lia|].
  cbn [orb]. eexists; split; [reflexivity|].
  repeat split; cbn [shape data torch.weight torch.bias torch.in_features
                       torch.out_features]; unfold wf_tensor; cbn [shape data numel fold_right].
  - rewrite (length_flat_map_const _ (Z.to_nat n_in)).
    + rewrite length_seq. lia.
    + apply Forall_forall. intros r _. now rewrite length_map, length_seq.
  - rewrite length_map, length_seq. lia.
Qed.

Lemma LitModel_init_wf (w : nat -> nat -> nat -> Q) (b : nat -> nat -> Q)
    (linear_1 linear_2 : Z) (rate factor : Q) :
  (0 <= linear_1)%Z -> (0 <= linear_2)%Z ->
  exists self,
    LitModel_init w b linear_1 linear_2 rate factor = Ok self /\
    wf_model self (Z.to_nat linear_1) (Z.to_nat linear_2) /\
    learning_rate self = rate /\ decay_factor self = factor.
Proof.
  intros H1 H2. unfold LitModel_init.
  destruct (nn_Linear_wf (w 1%nat) (b 1%nat) (28 * 28) linear_1) as (l1 & E1 & W1);
    [lia | exact H1 |].
  destruct (nn_Linear_wf (w 2%nat) (b 2%nat) linear_1 linear_2) as (l2 & E2 & W2);
    [exact H1 | exact H2 |].
  destruct (nn_Linear_wf (w 3%nat) (b 3%nat) linear_2 10) as (l3 & E3 & W3);
    [exact H2 | lia |].
  rewrite E1. cbn [rbind]. rewrite E2. cbn [rbind]. rewrite E3. cbn [rbind].
  eexists; split; [reflexivity|].
  repeat split; try apply W1; try apply W2; try apply W3.
Qed.

(** C1.  With positive hidden widths the model is constructed, and its
    forward pass on a batch of shape (N, 1, 28, 28) returns a tensor of
    shape (N, 10): every image is flattened to 784 values and goes through
    the layer 784 -> linear_1, ReLU, the layer linear_1 -> linear_2, ReLU,
    and the layer linear_2 -> 10.  A batch holds at least one image. *)
Theorem forward_shape (w : nat -> nat -> nat -> Q) (b : nat -> nat -> Q)
    (linear_1 linear_2 : Z) (rate factor : Q) :
  (0 < linear_1)%Z -> (0 < linear_2)%Z ->
  exists self,
    LitModel_init w b linear_1 linear_2 rate factor = Ok self /\
    (torch.in_features (layer_1 self) = 784 /\
     torch.out_features (layer_1 self) = Z.to_nat linear_1 /\
     torch.in_features (layer_2 self) = Z.to_nat linear_1 /\
     torch.out_features (layer_2 self) = Z.to_nat linear_2 /\
     torch.in_features (layer_3 self) = Z.to_nat linear_2 /\
     torch.out_features (layer_3 self) = 10)%nat /\
    forall (n : nat) (x : tensor Q),
      (1 <= n)%nat -> shape x = [n; 1; 28; 28]%nat -> wf_tensor x ->
      exists y,
        forward self x = Ok y /\
        shape y = [n; 10]%nat /\
        wf_tensor y /\
        Forall (fun image => length image = 784%nat) (rows n 784 (data x)) /\
        data y
        = flat_map
            (fun image =>
               torch.affine (layer_3 self)
                 (map (Qmax 0)
                    (torch.affine (layer_2 self)
                       (map (Qmax 0) (torch.affine (layer_1 self) image)))))
            (rows n 784 (data x)).
Proof.
  intros H1 H2.
  destruct (LitModel_init_wf w b linear_1 linear_2 rate factor) as (self & E & W & _);
    [lia | lia |].
  exists self. split; [exact E|]. split.
  { destruct W as ((? & ? & _) & (? & ? & _) & (? & ? & _)). tauto. }
  intros n x Hn Hs Hw.
  assert (Hlen : length (data x) = (n * 784)%nat).
  { unfold wf_tensor in Hw. rewrite Hs in Hw. cbn [numel fold_right] in Hw. lia. }
  eexists. split; [exact (forward_run self _ _ n x W Hn Hs Hw)|].
  cbn [shape data]. split; [reflexivity|]. split; [|split].
  - unfold wf_tensor. cbn [shape data numel fold_right].
    rewrite (length_flat_map_const _ 10).
    + rewrite length_rows. lia.
    + apply Forall_forall. intros r _. unfold scores.
      destruct W as (_ & _ & W3). now apply (affine_length _ _ 10 _ W3).
  - now apply rows_width.
  - reflexivity.
Qed.

Lemma forward_shape_witness :
  exists self,
    LitModel_init (fun _ _ _ => 0) (fun _ _ => 1) 2 3 0.001 0.9 = Ok self /\
    exists y, forward self blank_batch = Ok y /\ shape y = [1; 10]%nat.
Proof.
  destruct (forward_shape (fun _ _ _ => 0) (fun _ _ => 1) 2 3 0.001 0.9)
    as (self & E & _ & H); [reflexivity | reflexivity |].
  exists self. split; [exact E|].
  destruct (H 1%nat blank_batch) as (y & Ey & Sy & _);
    [apply le_n | reflexivity | reflexivity |].
  exists y. split; [exact Ey | exact Sy].
Defined.

(** The scores of a blank image under zero weights are the biases. *)
Example forward_blank_batch :
  rbind (LitModel_init (fun _ _ _ => 0) (fun _ _ => 1) 2 3 0.001 0.9)
        (fun self => rbind (forward self blank_batch)
                           (fun y => Ok (shape y, length (data y))))
  = Ok ([1; 10]%nat, 10%nat).
Proof. vm_compute. reflexivity. Qed.

(** A batch without images is refused by the reshaping. *)
Example forward_empty_batch :
  rbind (LitModel_init (fun _ _ _ => 0) (fun _ _ => 1) 2 3 0.001 0.9)
        (fun self => forward self (mkTensor [0; 1; 28; 28]%nat []))
  = Raise RuntimeError.
Proof. vm_compute. reflexivity. Qed.

(** ** The learning-rate schedule *)

Lemma scheduler_at_epoch_state (o : torch.Optimizer) (f : Z -> Q) (e : nat) :
  let s := scheduler_at_epoch (torch.new_LambdaLR o f) e in
  torch.last_epoch s = Z.of_nat e /\
  torch.base_lr s = torch.lr o /\
  torch.lr_lambda s = f /\
  torch.lr (torch.optimizer s) = torch.lr o * f (Z.of_nat e).
Proof.
  induction e as [|e IH].
  - cbn. repeat split.
  - cbn zeta in *. destruct IH as (He & Hb & Hf & _).
    cbn [scheduler_at_epoch].
    destruct (scheduler_at_epoch (torch.new_LambdaLR o f) e) as [o' b' f' e'].
    cbn [torch.last_epoch torch.base_lr torch.lr_lambda] in He, Hb, Hf.
    subst. unfold torch.step.
    cbn [torch.last_epoch torch.base_lr torch.lr_lambda torch.optimizer torch.lr].
    replace (Z.of_nat e + 1)%Z with (Z.of_nat (S e)) by lia.
    repeat split.
Qed.

(** C2.  The optimizer and its schedule are built whenever the configured
    rate is not negative, and in epoch [e] the rate of the optimizer is the
    initial rate times the decay factor to the power [e]. *)
Theorem learning_rate_at_epoch (self : LitModel) (e : nat) :
  0 <= learning_rate self ->
  exists opt sch,
    configure_optimizers self = Ok ([opt], [sch]) /\
    opt = torch.optimizer sch /\
    torch.lr (torch.optimizer (scheduler_at_epoch sch e))
    = learning_rate self * decay_factor self ^ Z.of_nat e.
Proof.
  intros H. unfold configure_optimizers, torch.Adam.
  rewrite (proj2 (Qle_bool_iff 0 (learning_rate self)) H). cbn [rbind].
  do 2 eexists. split; [reflexivity|]. split; [reflexivity|].
  pose proof (scheduler_at_epoch_state
                (torch.mkOptimizer (learning_rate self))
                (fun epoch => decay_factor self ^ epoch) e) as S.
  cbn zeta in S. destruct S as (_ & _ & _ & S). exact S.
Qed.

Lemma learning_rate_at_epoch_witness :
  exists opt sch,
    configure_optimizers (mkLitModel 3 0.001 0.9
                            (torch.mkLinear 0 0 (mkTensor [] []) (mkTensor [] []))
                            (torch.mkLinear 0 0 (mkTensor [] []) (mkTensor [] []))
                            (torch.mkLinear 0 0 (mkTensor [] []) (mkTensor [] []))
                            0)
    = Ok ([opt], [sch]) /\
    opt = torch.optimizer sch /\
    torch.lr (torch.optimizer (scheduler_at_epoch sch 2))
    = 0.001 * 0.9 ^ Z.of_nat 2.
Proof.
  apply (learning_rate_at_epoch
           (mkLitModel 3 0.001 0.9
              (torch.mkLinear 0 0 (mkTensor [] []) (mkTensor [] []))
              (torch.mkLinear 0 0 (mkTensor [] []) (mkTensor [] []))
              (torch.mkLinear 0 0 (mkTensor [] []) (mkTensor [] []))
              0) 2).
  cbn. unfold Qle. cbn. lia.
Defined.

(** The rate in the first three epochs, for a rate of 1/1000 and a factor
    of 9/10. *)
Example learning_rate_three_epochs :
  match configure_optimizers
          (mkLitModel 3 0.001 0.9 (layer_1 (model_at_epoch 0))
             (layer_2 (model_at_epoch 0)) (layer_3 (model_at_epoch 0)) 0) with
  | Ok (_, [sch]) =>
      map (fun e => Qred (torch.lr (torch.optimizer (scheduler_at_epoch sch e))))
          [0; 1; 2]%nat
  | _ => []
  end
  = [0.001; 0.0009; 0.00081].
Proof. reflexivity. Qed.

(** ** The train/validation split *)

Lemma NoDup_app_disjoint {A : Type} (l1 l2 : list A) :
  NoDup (l1 ++ l2) -> forall a, In a l1 -> ~ In a l2.
Proof.
  induction l1 as [|x l1 IH]; intros H a Ha Hb; [destruct Ha|].
  cbn in H. apply NoDup_cons_iff in H as [Hx Hrest].
  destruct Ha as [->|Ha].
  - apply Hx, in_or_app. now right.
  - exact (IH Hrest a Ha Hb).
Qed.

(** Cutting a permutation of the [a + b] indices after the first [a]. *)
Lemma cut_permutation (perm : list nat) (a b : nat) :
  Permutation perm (seq 0 (a + b)) ->
  let tr := firstn a perm in
  let va := firstn b (skipn a perm) in
  length tr = a /\ length va = b /\
  Permutation (tr ++ va) (seq 0 (a + b)) /\
  NoDup (tr ++ va) /\
  (forall i, In i tr -> ~ In i va).
Proof.
  intros P tr va.
  assert (L : length perm = (a + b)%nat).
  { rewrite (Permutation_length P). apply length_seq. }
  assert (Eva : va = skipn a perm).
  { unfold va. apply firstn_all2. rewrite length_skipn. lia. }
  assert (E : tr ++ va = perm).
  { rewrite Eva. apply firstn_skipn. }
  assert (N : NoDup (tr ++ va)).
  { rewrite E. apply (Permutation_NoDup (Permutation_sym P)), seq_NoDup. }
  split; [unfold tr; rewrite length_firstn; lia|].
  split; [rewrite Eva, length_skipn; lia|].
  split; [now rewrite E|].
  split; [exact N|].
  now apply NoDup_app_disjoint.
Qed.

Lemma random_split_two {D : Type} (len : D -> nat) (randperm : nat -> list nat)
    (ds : D) (a b : N) :
  len ds = (N.to_nat a + N.to_nat b)%nat ->
  data.random_split len randperm ds [a; b]
  = Ok [data.mkSubset ds
          (firstn (N.to_nat a) (randperm (N.to_nat a + N.to_nat b)%nat));
        data.mkSubset ds
          (firstn (N.to_nat b)
             (skipn (N.to_nat a) (randperm (N.to_nat a + N.to_nat b)%nat)))].
Proof.
  intros H. unfold data.random_split, data.sum.
  cbn [fold_left]. rewrite H.
  replace (0 + a + b =? N.of_nat (N.to_nat a + N.to_nat b))%N with true
    by (symmetry; apply N.eqb_eq; lia).
  unfold data.accumulate. cbn [data.accumulate_from combine map fst snd].
  unfold data.slice.
  replace (N.to_nat (0 + a + b)) with (N.to_nat a + N.to_nat b)%nat by lia.
  replace (N.to_nat (0 + a - (0 + a - a))) with (N.to_nat a) by lia.
  replace (N.to_nat (0 + a - a)) with 0%nat by lia.
  replace (N.to_nat (0 + a + b - (0 + a + b - b))) with (N.to_nat b) by lia.
  replace (N.to_nat (0 + a + b - b)) with (N.to_nat a) by lia.
  reflexivity.
Qed.

Lemma setup_fit_run (train_files test_files : list (tensor Z * Z))
    (randperm : nat -> list nat) (self : MNISTDataModule) :
  length train_files = (N.to_nat 55000 + N.to_nat 5000)%nat ->
  let full := mkMNIST train_files (compose_transform (normalization_vector self)) in
  let perm := randperm (N.to_nat 55000 + N.to_nat 5000)%nat in
  setup train_files test_files randperm self "fit"
  = Ok (mkDataModule (batch_size self) (normalization_vector self)
          (Some (data.mkSubset full (firstn (N.to_nat 55000) perm)))
          (Some (data.mkSubset full
                   (firstn (N.to_nat 5000) (skipn (N.to_nat 55000) perm))))
          (mnist_test self)).
Proof.
  intros H full perm. unfold setup.
  change (String.eqb "fit" "fit") with true.
  change (String.eqb "fit" "test") with false.
  cbv iota.
  rewrite random_split_two by exact H.
  reflexivity.
Qed.

(** C3.  With the 60000 training examples on disk, [setup] in stage [fit]
    leaves a training split of 55000 and a validation split of 5000
    indices into that set; together the two are all of its 60000 indices,
    each once, and no index is in both. *)
Theorem setup_fit_split (train_files test_files : list (tensor Z * Z))
    (randperm : nat -> list nat) (self : MNISTDataModule) :
  N.of_nat (length train_files) = 60000%N ->
  Permutation (randperm (length train_files)) (seq 0 (length train_files)) ->
  exists tr va,
    setup train_files test_files randperm self "fit"
    = Ok (mkDataModule (batch_size self) (normalization_vector self)
                       (Some tr) (Some va) (mnist_test self)) /\
    examples (data.dataset tr) = train_files /\
    examples (data.dataset va) = train_files /\
    N.of_nat (length (data.indices tr)) = 55000%N /\
    N.of_nat (length (data.indices va)) = 5000%N /\
    Permutation (data.indices tr ++ data.indices va)
                (seq 0 (length train_files)) /\
    NoDup (data.indices tr ++ data.indices va) /\
    (forall i, In i (data.indices tr) -> ~ In i (data.indices va)).
Proof.
  intros Hlen Hperm.
  assert (H : length train_files = (N.to_nat 55000 + N.to_nat 5000)%nat) by lia.
  do 2 eexists. split; [exact (setup_fit_run _ test_files randperm self H)|].
  cbn [data.dataset data.indices examples].
  split; [reflexivity|]. split; [reflexivity|].
  rewrite H in Hperm |- *.
  destruct (cut_permutation _ _ _ Hperm) as (La & Lb & P & N & Dj).
  rewrite La, Lb, !N2Nat.id.
  repeat split; assumption.
Qed.

Lemma setup_fit_split_witness :
  exists tr va,
    setup (repeat grey_file (N.to_nat 60000)) []
          (fun n => seq 0 n) (dm 32) "fit"
    = Ok (mkDataModule (batch_size (dm 32)) (normalization_vector (dm 32))
                       (Some tr) (Some va) (mnist_test (dm 32))) /\
    N.of_nat (length (data.indices tr)) = 55000%N /\
    N.of_nat (length (data.indices va)) = 5000%N /\
    (forall i, In i (data.indices tr) -> ~ In i (data.indices va)).
Proof.
  destruct (setup_fit_split
              (repeat grey_file (N.to_nat 60000)) []
              (fun n => seq 0 n) (dm 32))
    as (tr & va & E & _ & _ & La & Lb & _ & _ & Dj).
  - rewrite repeat_length. apply N2Nat.id.
  - apply Permutation_refl.
  - exists tr, va. repeat split; assumption.
Defined.

(** The same cut on a set of five examples, three and two. *)
Example random_split_five :
  data.random_split (@length nat) (fun _ => [3; 0; 4; 1; 2]%nat)
                    [10; 11; 12; 13; 14]%nat [3; 2]%N
  = Ok [data.mkSubset [10; 11; 12; 13; 14]%nat [3; 0; 4]%nat;
        data.mkSubset [10; 11; 12; 13; 14]%nat [1; 2]%nat].
Proof. reflexivity. Qed.

Example random_split_wrong_sum :
  data.random_split (@length nat) (fun n => seq 0 n)
                    [10; 11; 12; 13; 14]%nat [3; 3]%N
  = Raise ValueError.
Proof. reflexivity. Qed.

(** ** The test step *)

Lemma rescale_run (image : tensor Q) :
  data image <> [] ->
  rescale image
  = Ok (mkTensor (shape image)
          (map (fun v => xdiv (clamp_negative v)
                              (greatest (map clamp_negative (data image))))
               (data image))).
Proof.
  intros H. unfold rescale, tmap. cbn [data shape].
  destruct (data image) as [|v t]; [congruence|].
  cbn [map np.amax rbind greatest]. now rewrite map_map.
Qed.

Lemma index_nth {A : Type} (l : list A) (j : nat) (d : A) :
  (j < length l)%nat -> index l j = Ok (nth j l d).
Proof.
  intros H. unfold index.
  destruct (nth_error l j) as [a|] eqn:E.
  - now rewrite (nth_error_nth _ _ d E).
  - apply nth_error_None in E. lia.
Qed.

Lemma where_from_filter (mask : list bool) (i : nat) :
  np.where_from i mask
  = filter (fun j => nth (j - i) mask false) (seq i (length mask)).
Proof.
  revert i; induction mask as [|b mask IH]; intros i; [reflexivity|].
  assert (E : filter (fun j => nth (j - i) (b :: mask) false) (seq (S i) (length mask))
              = filter (fun j => nth (j - S i) mask false) (seq (S i) (length mask))).
  { apply filter_ext_in. intros j Hj. apply in_seq in Hj.
    replace (j - i)%nat with (S (j - S i)) by lia. reflexivity. }
  change (seq i (length (b :: mask))) with (i :: seq (S i) (length mask)).
  cbn [filter]. rewrite E, <- IH, Nat.sub_diag.
  cbn [nth np.where_from]. now destruct b.
Qed.

Lemma nth_map2 {A B C : Type} (f : A -> B -> C) (u : list A) (v : list B)
    (j : nat) (a : A) (b : B) (c : C) :
  length u = length v -> (j < length u)%nat ->
  nth j (map2 f u v) c = f (nth j u a) (nth j v b).
Proof.
  revert v j; induction u as [|x u IH]; intros [|y v] j Hl Hj; cbn in *;
    try lia.
  destruct j; [reflexivity|]. apply IH; lia.
Qed.

Lemma where_not_equal (yt yp : list Z) :
  length yt = length yp ->
  exists mask,
    np.not_equal yt yp = Ok mask /\
    np.where_ mask
    = filter (fun j => negb (nth j yt 0 =? nth j yp 0)%Z) (seq 0 (length yt)).
Proof.
  intros H. unfold np.not_equal. rewrite H, Nat.eqb_refl.
  eexists; split; [reflexivity|].
  unfold np.where_. rewrite where_from_filter.
  rewrite length_map2 by (now rewrite H). rewrite <- H.
  apply filter_ext_in. intros j Hj. apply in_seq in Hj.
  rewrite Nat.sub_0_r.
  rewrite (nth_map2 (fun u v => negb (u =? v)%Z) yt yp j 0%Z 0%Z false) by lia.
  reflexivity.
Qed.

Lemma for_each_emit_in {A : Type} (body : A -> M unit) (f : A -> event)
    (l : list A) :
  (forall a, In a l -> forall s, body a s = (Ok tt, s ++ [f a])) ->
  forall s, for_each l body s = (Ok tt, s ++ map f l).
Proof.
  induction l as [|a l IH]; intros H s; cbn [for_each map].
  - unfold ret. now rewrite app_nil_r.
  - unfold bind. rewrite (H a (or_introl eq_refl)).
    rewrite IH by (intros; apply H; now right).
    now rewrite <- app_assoc.
Qed.

Lemma select_image (x : tensor Q) (n j : nat) :
  shape x = [n; 1; 28; 28]%nat -> (j < n)%nat ->
  torch.select x j = Ok (mkTensor [1; 28; 28]%nat (pixels x j)).
Proof.
  intros Hs Hj. unfold torch.select. rewrite Hs.
  destruct (Nat.ltb_spec j n) as [_|?]; [|lia]. reflexivity.
Qed.

Lemma pixels_length (x : tensor Q) (n j : nat) :
  shape x = [n; 1; 28; 28]%nat -> wf_tensor x -> (j < n)%nat ->
  length (pixels x j) = 784%nat.
Proof.
  intros Hs Hw Hj. unfold wf_tensor in Hw. rewrite Hs in Hw.
  cbn [numel fold_right] in Hw. unfold pixels.
  rewrite length_firstn, length_skipn. lia.
Qed.

Lemma scores_length (self : LitModel) (h1 h2 : nat) (image : list Q) :
  wf_model self h1 h2 -> length (scores self image) = 10%nat.
Proof.
  intros (_ & _ & W3). unfold scores. now apply (affine_length _ _ 10 _ W3).
Qed.

(** The predicted labels of a batch: label [j] is the first greatest
    score of image [j]. *)
Lemma argmax_forward (self : LitModel) (h1 h2 n : nat) (d : list Q) :
  wf_model self h1 h2 ->
  torch.argmax_axis1 (mkTensor [n; 10]%nat (flat_map (scores self) (rows n 784 d)))
  = Ok (map (predicted self) (rows n 784 d)).
Proof.
  intros W. unfold torch.argmax_axis1. cbn [shape data Nat.eqb].
  pose proof (rows_flat_map (scores self) 10 (rows n 784 d)) as E.
  rewrite length_rows in E. rewrite E.
  - now rewrite map_map.
  - apply Forall_forall. intros r _. now apply (scores_length self h1 h2).
Qed.


(** ** The example image of the validation step *)

Lemma denormalize_normalize (v : Q) : denormalize (normalize v) == v.
Proof. unfold denormalize, normalize. field. Qed.

Lemma transform_run (image : tensor Z) (bs : Z) :
  grey28 image ->
  compose_transform (normalization_vector (dm bs)) image
  = Ok (mkTensor [1; 28; 28]%nat
          (map normalize (data (transforms.ToTensor image)))).
Proof.
  intros (Hs & Hw). unfold wf_tensor in Hw. rewrite Hs in Hw.
  cbn [numel fold_right] in Hw.
  unfold compose_transform, transforms.Normalize, transforms.ToTensor.
  cbn [shape data normalization_vector dm MNISTDataModule_init fst snd].
  rewrite Hs.
  change (existsb (fun s => Qeq_bool s 0) [0.3081]) with false.
  change (transforms.fits [0.1307] 1 && transforms.fits [0.3081] 1) with true.
  cbv iota. do 2 f_equal.
  unfold rows. cbn [seq map map2 concat Nat.mul skipn transforms.channel_value].
  rewrite app_nil_r, firstn_all2; [reflexivity|].
  rewrite length_map. lia.
Qed.

Lemma getitem_run (files : list (tensor Z * Z)) (bs : Z) (i : nat) :
  Forall (fun e => grey28 (fst e)) files ->
  (i < length files)%nat ->
  MNIST_getitem (script_dataset files bs) i
  = Ok (mkTensor [1; 28; 28]%nat (normalized_pixels files i), label_of files i).
Proof.
  intros Hg Hi. unfold MNIST_getitem, script_dataset.
  cbn [examples transform].
  rewrite (index_nth files i (mkTensor [] [], 0%Z) Hi). cbn [rbind].
  rewrite transform_run; [reflexivity|].
  rewrite Forall_forall in Hg. apply Hg, nth_In, Hi.
Qed.

Lemma mapM_getitem (files : list (tensor Z * Z)) (bs : Z) (idxs : list nat) :
  Forall (fun e => grey28 (fst e)) files ->
  Forall (fun i => (i < length files)%nat) idxs ->
  mapM (MNIST_getitem (script_dataset files bs)) idxs
  = Ok (map (fun i => (mkTensor [1; 28; 28]%nat (normalized_pixels files i),
                       label_of files i)) idxs).
Proof.
  intros Hg. induction 1 as [|i idxs Hi _ IH]; [reflexivity|].
  cbn [mapM map]. rewrite (getitem_run files bs i Hg Hi). cbn [rbind].
  rewrite IH. reflexivity.
Qed.

Lemma stack_images (ts : list (tensor Q)) :
  ts <> [] ->
  Forall (fun t => shape t = [1; 28; 28]%nat) ts ->
  torch.stack ts
  = Ok (mkTensor (length ts :: [1; 28; 28]%nat) (concat (map data ts))).
Proof.
  intros Hne Hs. unfold torch.stack.
  destruct ts as [|t ts']; [congruence|].
  assert (E : forallb (fun u => list_eq_dec_bool (shape u) (shape t)) (t :: ts') = true).
  { apply forallb_forall. intros u Hu. rewrite Forall_forall in Hs.
    rewrite (Hs u Hu), (Hs t (or_introl eq_refl)).
    unfold list_eq_dec_bool. now destruct (list_eq_dec Nat.eq_dec _ _). }
  rewrite E. rewrite (Forall_inv Hs). reflexivity.
Qed.

(** A batch of the data set of the script. *)
Lemma fetch_run (files : list (tensor Z * Z)) (bs : Z) (idxs : list nat) :
  Forall (fun e => grey28 (fst e)) files ->
  idxs <> [] ->
  Forall (fun i => (i < length files)%nat) idxs ->
  fetch (script_dataset files bs) idxs
  = Ok (mkTensor (length idxs :: [1; 28; 28]%nat)
                 (concat (map (normalized_pixels files) idxs)),
        map (label_of files) idxs).
Proof.
  intros Hg Hne Hi. unfold fetch, collate.
  rewrite (mapM_getitem files bs idxs Hg Hi). cbn [rbind].
  rewrite !map_map. cbn [fst snd].
  rewrite stack_images.
  - cbn [rbind]. rewrite !map_map, length_map. cbn [data]. reflexivity.
  - destruct idxs; [congruence | discriminate].
  - apply Forall_forall. intros t Ht. apply in_map_iff in Ht as (i & <- & _).
    reflexivity.
Qed.

Lemma normalized_pixels_length (files : list (tensor Z * Z)) (i : nat) :
  Forall (fun e => grey28 (fst e)) files ->
  (i < length files)%nat ->
  length (normalized_pixels files i) = 784%nat.
Proof.
  intros Hg Hi. rewrite Forall_forall in Hg.
  destruct (Hg _ (nth_In files (mkTensor [] [], 0%Z) Hi)) as (Hs & Hw).
  unfold normalized_pixels, transforms.ToTensor. cbn [data].
  rewrite !length_map. unfold wf_tensor in Hw. rewrite Hs in Hw.
  cbn [numel fold_right] in Hw. lia.
Qed.

(** What [validation_step] returns on a batch of [n] images. *)
Lemma validation_step_run (F_cross_entropy : tensor Q -> list Z -> result Q)
    (F_softmax : list Q -> list Q) (str_float : Q -> string)
    (self : LitModel) (h1 h2 n : nat) (x : tensor Q) (y : list Z) (l : Q) :
  wf_model self h1 h2 ->
  (1 <= n)%nat -> shape x = [n; 1; 28; 28]%nat -> wf_tensor x ->
  length y = n ->
  F_cross_entropy
    (mkTensor [n; 10]%nat (flat_map (scores self) (rows n 784 (data x)))) y
  = Ok l ->
  exists nm descr,
    validation_step F_cross_entropy F_softmax str_float self (x, y)
    = Ok (mkOutput l y (map (predicted self) (rows n 784 (data x)))
            (Some (mkPrediction
                     (mkTensor [28; 28]%nat (map denormalize (pixels x 0)))
                     nm descr))).
Proof.
  intros W Hn Hs Hw Hy Hce.
  unfold validation_step.
  rewrite (forward_run self h1 h2 n x W Hn Hs Hw). cbn [rbind].
  rewrite Hce. cbn [rbind].
  rewrite (argmax_forward self h1 h2 n _ W). cbn [rbind].
  rewrite (select_image x n 0 Hs) by lia. cbn [rbind].
  unfold torch.select at 1. cbn [shape].
  destruct (Nat.ltb_spec 0 n) as [_|?]; [|lia]. cbn [rbind].
  rewrite (index_nth _ 0 0%Z) by (rewrite length_map, length_rows; lia).
  cbn [rbind].
  rewrite (index_nth y 0 0%Z) by lia. cbn [rbind].
  do 2 eexists. reflexivity.
Qed.





(** A blank image under zero weights is given label 0; with a true label
    of 3 it is sent, and its pixels are the [NaN] of [0/0]. *)
Example test_step_blank_image :
  match LitModel_init (fun _ _ _ => 0) (fun _ _ => 1) 2 3 0.001 0.9 with
  | Ok self =>
      match test_step (fun _ _ => Ok 0) self (blank_batch, [3%Z]) [] with
      | (Ok out, [experiment_log key image None (Some d)]) =>
          (y_pred out, key, d, shape image, nth 0 (data image) (Fin 0))
      | _ => ([], EmptyString, EmptyString, [], Fin 0)
      end
  | Raise _ => ([], EmptyString, EmptyString, [], Fin 0)
  end
  = ([0%Z], "test/misclassified_images"%string, "y_pred=0, y_true=3"%string,
     [28; 28]%nat, NaN).
Proof. vm_compute. reflexivity. Qed.

(** A correctly classified example sends nothing. *)
Example test_step_correct_image :
  match LitModel_init (fun _ _ _ => 0) (fun _ _ => 1) 2 3 0.001 0.9 with
  | Ok self => snd (test_step (fun _ _ => Ok 0) self (blank_batch, [0%Z]) [])
  | Raise _ => [self_log EmptyString NaN]
  end
  = [].
Proof. vm_compute. reflexivity. Qed.

(** * Further properties of the code *)

(** ** Accuracy and the epoch-end hooks *)

Lemma agree_bounds (u v : Z) : 0 <= agree u v <= 1.
Proof. unfold agree. destruct (u =? v)%Z; split; discriminate. Qed.

Lemma Qsum_agree_bounds (u v : list Z) :
  0 <= Qsum (map2 agree u v)
  /\ Qsum (map2 agree u v) <= inject_Z (Z.of_nat (length (map2 agree u v))).
Proof.
  revert v; induction u as [|a u IH]; intros [|b v];
    try (split; discriminate).
  cbn [map2 Qsum fold_right length]. fold (Qsum (map2 agree u v)).
  destruct (IH v) as [L U]. destruct (agree_bounds a b) as [La Ua].
  split.
  - rewrite <- (Qplus_0_l 0). now apply Qplus_le_compat.
  - rewrite Nat2Z.inj_succ, <- Z.add_1_l, inject_Z_plus.
    now apply Qplus_le_compat.
Qed.

Lemma unit_fraction (a : Q) (n : nat) :
  n <> 0%nat -> 0 <= a -> a <= inject_Z (Z.of_nat n) ->
  0 <= a / inject_Z (Z.of_nat n) <= 1.
Proof.
  intros Hn L U.
  assert (Hpos : 0 < inject_Z (Z.of_nat n)).
  { change 0 with (inject_Z 0). rewrite <- Zlt_Qlt. lia. }
  split.
  - apply Qle_shift_div_l; [exact Hpos|]. now rewrite Qmult_0_l.
  - apply Qle_shift_div_r; [exact Hpos|]. now rewrite Qmult_1_l.
Qed.

(** The accuracy of two arrays of one length [n >= 1], written out. *)
Lemma accuracy_score_value (yt yp : list Z) :
  yt <> [] -> length yt = length yp ->
  sklearn.accuracy_score yt yp
  = Ok (Fin (Qsum (map2 agree yt yp) / inject_Z (Z.of_nat (length yt)))).
Proof.
  intros Hne Hlen.
  assert (Hn : length yt <> 0%nat) by (destruct yt; [congruence | discriminate]).
  rewrite (accuracy_score_total yt yp Hlen). unfold np.mean.
  rewrite length_map2 by exact Hlen.
  now rewrite xdiv_finite by (now apply count_nonzero).
Qed.

(** X1.  On non-empty label arrays of one length the accuracy is a number
    between 0 and 1. *)
Theorem accuracy_score_range (yt yp : list Z) :
  yt <> [] -> length yt = length yp ->
  exists q, sklearn.accuracy_score yt yp = Ok (Fin q) /\ 0 <= q <= 1.
Proof.
  intros Hne Hlen.
  assert (Hn : length yt <> 0%nat) by (destruct yt; [congruence | discriminate]).
  rewrite (accuracy_score_value yt yp Hne Hlen).
  eexists; split; [reflexivity|].
  destruct (Qsum_agree_bounds yt yp) as [L U].
  rewrite length_map2 in U by exact Hlen.
  now apply unit_fraction.
Qed.

Lemma accuracy_score_range_witness :
  exists q, sklearn.accuracy_score [3; 1; 4; 1]%Z [3; 1; 5; 9]%Z = Ok (Fin q)
            /\ 0 <= q <= 1.
Proof.
  apply (accuracy_score_range [3; 1; 4; 1]%Z [3; 1; 5; 9]%Z);
    [discriminate | reflexivity].
Defined.

Lemma accuracy_score_mismatch (yt yp : list Z) :
  length yt <> length yp -> sklearn.accuracy_score yt yp = Raise ValueError.
Proof.
  intros H. unfold sklearn.accuracy_score.
  destruct (Nat.eqb_spec (length yt) (length yp)); [contradiction | reflexivity].
Qed.

(** X2.  [training_epoch_end] and [test_epoch_end] log both metrics or
    nothing: whatever the records, either the loss and the accuracy are
    both appended to the log, or the hook raises [ValueError] and the log
    is as it was; it raises exactly when the records hold different
    numbers of true and predicted labels in total. *)
Theorem epoch_end_logs_both_or_nothing (self : LitModel)
    (outputs : list step_output) (s : list event) :
  let n_true := length (concat (map y_true outputs)) in
  let n_pred := length (concat (map y_pred outputs)) in
  (n_true = n_pred ->
   exists l acc,
     training_epoch_end self outputs s
     = (Ok tt, s ++ [self_log "train/epoch/loss" l; self_log "train/epoch/acc" acc]) /\
     test_epoch_end self outputs s
     = (Ok tt, s ++ [self_log "test/loss" l; self_log "test/acc" acc])) /\
  (n_true <> n_pred ->
   training_epoch_end self outputs s = (Raise ValueError, s) /\
   test_epoch_end self outputs s = (Raise ValueError, s)).
Proof.
  cbv zeta. fold (all_true outputs) (all_pred outputs).
  unfold training_epoch_end, test_epoch_end. rewrite gather_spec.
  unfold bind, lift, emit. split; intros H.
  - rewrite (accuracy_score_total _ _ H). do 2 eexists.
    rewrite <- !app_assoc. split; reflexivity.
  - rewrite (accuracy_score_mismatch _ _ H). split; reflexivity.
Qed.

(** X3.  [validation_epoch_end] reads [predictions] from every record: on
    records of which one has no such entry (those of a training or test
    step) it raises [KeyError] and logs nothing. *)
Theorem validation_epoch_end_missing_predictions (self : LitModel)
    (outputs : list step_output) (s : list event) :
  Exists (fun r => predictions r = None) outputs ->
  validation_epoch_end self outputs s = (Raise KeyError, s).
Proof.
  intros H. unfold validation_epoch_end. unfold bind at 1, lift at 1.
  assert (E : forall acc, gather_val outputs acc = Raise KeyError).
  { induction H as [r rest Hr | r rest _ IH]; intros [[[l yt] yp] ip];
      cbn [gather_val]; unfold get_predictions.
    - now rewrite Hr.
    - destruct (predictions r); [|reflexivity]. cbn [rbind]. apply IH. }
  now rewrite E.
Qed.

Lemma validation_epoch_end_missing_predictions_witness :
  validation_epoch_end (model_at_epoch 5)
    [example_output; mkOutput 0.5 [1]%Z [2]%Z None] []
  = (Raise KeyError, []).
Proof.
  apply (validation_epoch_end_missing_predictions (model_at_epoch 5)
           [example_output; mkOutput 0.5 [1]%Z [2]%Z None] []).
  right. left. reflexivity.
Defined.

Lemma epoch_end_logs_both_or_nothing_witness :
  training_epoch_end (model_at_epoch 1) [mkOutput 0.5 [1; 2]%Z [2]%Z None] []
  = (Raise ValueError, []) /\
  test_epoch_end (model_at_epoch 1) [mkOutput 0.5 [1; 2]%Z [2]%Z None] []
  = (Raise ValueError, []).
Proof.
  apply (epoch_end_logs_both_or_nothing (model_at_epoch 1)
           [mkOutput 0.5 [1; 2]%Z [2]%Z None] []).
  discriminate.
Defined.

(** ** The predicted labels *)

Lemma argmax_from_spec (l pre : list Q) (bi : nat) (b : Q) :
  (bi < length pre)%nat ->
  nth bi pre 0 = b ->
  (forall j, (j < length pre)%nat -> nth j pre 0 <= b) ->
  (forall j, (j < bi)%nat -> nth j pre 0 < b) ->
  let k := torch.argmax_from bi b (length pre) l in
  (k < length (pre ++ l))%nat /\
  (forall j, (j < length (pre ++ l))%nat ->
     nth j (pre ++ l) 0 <= nth k (pre ++ l) 0) /\
  (forall j, (j < k)%nat -> nth j (pre ++ l) 0 < nth k (pre ++ l) 0).
Proof.
  revert pre bi b; induction l as [|v l IH]; intros pre bi b Hbi Hb Hle Hlt.
  - cbn [torch.argmax_from]. rewrite app_nil_r, Hb. repeat split; auto.
  - cbn [torch.argmax_from].
    assert (Eapp : pre ++ v :: l = (pre ++ [v]) ++ l) by (now rewrite <- app_assoc).
    assert (Elen : S (length pre) = length (pre ++ [v]))
      by (rewrite length_app; cbn; lia).
    assert (Hold : forall j, (j < length pre)%nat ->
                     nth j (pre ++ [v]) 0 = nth j pre 0)
      by (intros j Hj; now apply app_nth1).
    assert (Hnew : nth (length pre) (pre ++ [v]) 0 = v)
      by (rewrite app_nth2, Nat.sub_diag by lia; reflexivity).
    rewrite Eapp, Elen.
    destruct (Qle_bool v b) eqn:E.
    + apply Qle_bool_iff in E.
      apply IH.
      * rewrite <- Elen. lia.
      * rewrite Hold by exact Hbi. exact Hb.
      * intros j Hj. rewrite <- Elen in Hj.
        destruct (Nat.eq_dec j (length pre)) as [->|Hne].
        -- now rewrite Hnew.
        -- rewrite Hold by lia. apply Hle. lia.
      * intros j Hj. rewrite Hold by lia. now apply Hlt.
    + assert (Hbv : b < v).
      { apply Qnot_le_lt. intros C. apply Qle_bool_iff in C. congruence. }
      apply IH.
      * rewrite <- Elen. lia.
      * exact Hnew.
      * intros j Hj. rewrite <- Elen in Hj.
        destruct (Nat.eq_dec j (length pre)) as [->|Hne].
        -- rewrite Hnew. apply Qle_refl.
        -- rewrite Hold by lia. apply Qlt_le_weak.
           eapply Qle_lt_trans; [apply Hle; lia | exact Hbv].
      * intros j Hj. rewrite Hold by exact Hj.
        eapply Qle_lt_trans; [apply Hle; exact Hj | exact Hbv].
Qed.

Lemma argmax_row_spec (r : list Q) :
  r <> [] ->
  (torch.argmax_row r < length r)%nat /\
  (forall j, (j < length r)%nat -> nth j r 0 <= nth (torch.argmax_row r) r 0) /\
  (forall j, (j < torch.argmax_row r)%nat ->
     nth j r 0 < nth (torch.argmax_row r) r 0).
Proof.
  destruct r as [|v t]; [congruence|]. intros _.
  apply (argmax_from_spec t [v] 0 v).
  - cbn; lia.
  - reflexivity.
  - intros [|j] Hj; [apply Qle_refl | cbn in Hj; lia].
  - intros j Hj. lia.
Qed.

(** X4.  [argmax(axis=1)] on a tensor of [n] rows and [c >= 1] columns
    gives one label per row; the label is a column index, no entry of that
    row is greater than the entry at the label, and every entry before it
    is smaller. *)
Theorem argmax_axis1_greatest (x : tensor Q) (n c : nat) :
  shape x = [n; c] -> wf_tensor x -> (1 <= c)%nat ->
  exists labels,
    torch.argmax_axis1 x = Ok labels /\
    length labels = n /\
    forall i, (i < n)%nat ->
      let row := nth i (rows n c (data x)) [] in
      let k := nth i labels 0%Z in
      (0 <= k < Z.of_nat c)%Z /\
      (forall j, (j < c)%nat -> nth j row 0 <= nth (Z.to_nat k) row 0) /\
      (forall j, (j < Z.to_nat k)%nat -> nth j row 0 < nth (Z.to_nat k) row 0).
Proof.
  intros Hs Hw Hc. unfold torch.argmax_axis1. rewrite Hs.
  destruct (Nat.eqb_spec c 0) as [?|_]; [lia|].
  eexists. split; [reflexivity|]. split.
  { now rewrite length_map, length_rows. }
  intros i Hi. cbv zeta.
  assert (Hlen : length (data x) = (n * c)%nat).
  { unfold wf_tensor in Hw. rewrite Hs in Hw. cbn [numel fold_right] in Hw. lia. }
  pose proof (rows_width n c (data x) Hlen) as Hwid.
  rewrite Forall_forall in Hwid.
  assert (Hin : In (nth i (rows n c (data x)) []) (rows n c (data x)))
    by (apply nth_In; now rewrite length_rows).
  pose proof (Hwid _ Hin) as Hr.
  set (row := nth i (rows n c (data x)) []) in *.
  assert (El : nth i (map (fun r => Z.of_nat (torch.argmax_row r))
                          (rows n c (data x))) 0%Z
               = Z.of_nat (torch.argmax_row row)).
  { rewrite (nth_indep _ 0%Z (Z.of_nat (torch.argmax_row [])))
      by (now rewrite length_map, length_rows).
    apply (map_nth (fun r => Z.of_nat (torch.argmax_row r))). }
  rewrite El, Nat2Z.id.
  destruct (argmax_row_spec row) as (Hk & Hmax & Hfirst).
  { intros E. rewrite E in Hr. cbn in Hr. lia. }
  rewrite Hr in Hk, Hmax.
  repeat split; try lia; assumption.
Qed.

Lemma argmax_axis1_greatest_witness :
  exists labels,
    torch.argmax_axis1 (mkTensor [2; 3]%nat [1; 5; 5; 7; 2; 0]) = Ok labels /\
    nth 0 labels 0%Z = 1%Z /\ nth 1 labels 0%Z = 0%Z.
Proof.
  destruct (argmax_axis1_greatest (mkTensor [2; 3]%nat [1; 5; 5; 7; 2; 0]) 2 3)
    as (labels & E & _ & _); [reflexivity | reflexivity | repeat constructor |].
  exists labels. split; [exact E|].
  cbv in E. injection E as <-. split; reflexivity.
Defined.

(** ** Which batches the forward pass accepts *)

Lemma Linear_call_mismatch (l : torch.Linear) (n k : nat) (x : tensor Q) :
  shape x = [n; k] -> k <> torch.in_features l ->
  torch.Linear_call l x = Raise RuntimeError.
Proof.
  intros Hs Hk. unfold torch.Linear_call. rewrite Hs. cbn [rev app].
  destruct (Nat.eqb_spec k (torch.in_features l)); [contradiction | reflexivity].
Qed.

(** X5.  The forward pass looks at the number of values per image only,
    not at how they are arranged: on a well-formed batch whose first axis
    is [n] it returns scores of shape (n, 10) when [n >= 1] and an image
    has 784 values, and raises [RuntimeError] when the batch is empty or
    an image has another number of values. *)
Theorem forward_accepts (self : LitModel) (h1 h2 n : nat) (s : list nat)
    (x : tensor Q) :
  wf_model self h1 h2 ->
  shape x = n :: s -> wf_tensor x ->
  ((1 <= n)%nat -> numel s = 784%nat ->
   forward self x
   = Ok (mkTensor [n; 10]%nat (flat_map (scores self) (rows n 784 (data x))))) /\
  (n = 0%nat -> forward self x = Raise RuntimeError) /\
  ((1 <= n)%nat -> numel s <> 784%nat -> forward self x = Raise RuntimeError).
Proof.
  intros W Hs Hw. split; [|split].
  - intros Hn Hk.
    pose proof (forward_run self h1 h2 n
                  (mkTensor [n; 1; 28; 28]%nat (data x)) W Hn eq_refl) as R.
    cbn [data] in R. rewrite <- R.
    + unfold forward.
      rewrite (view_rows_batch x n s Hn Hs Hw).
      rewrite (view_rows_batch (mkTensor [n; 1; 28; 28]%nat (data x)) n
                 [1; 28; 28]%nat Hn eq_refl).
      * rewrite Hk. reflexivity.
      * unfold wf_tensor in *. rewrite Hs in Hw. cbn [shape data numel fold_right] in *.
        fold (numel s) in Hw. lia.
    + unfold wf_tensor in *. rewrite Hs in Hw. cbn [shape data numel fold_right] in *.
      fold (numel s) in Hw. lia.
  - intros ->. unfold forward, torch.view_rows. now rewrite Hs.
  - intros Hn Hk. unfold forward.
    rewrite (view_rows_batch x n s Hn Hs Hw). cbn [rbind].
    rewrite (Linear_call_mismatch _ n (numel s)); [reflexivity | reflexivity |].
    destruct W as ((Hi & _) & _). now rewrite Hi.
Qed.

Lemma forward_accepts_witness :
  exists self,
    LitModel_init (fun _ _ _ => 0) (fun _ _ => 1) 2 3 0.001 0.9 = Ok self /\
    (exists y, forward self flat_batch = Ok y /\ shape y = [2; 10]%nat) /\
    forward self small_batch = Raise RuntimeError /\
    forward self (mkTensor [0; 1; 28; 28]%nat []) = Raise RuntimeError.
Proof.
  destruct (LitModel_init_wf (fun _ _ _ => 0) (fun _ _ => 1) 2 3 0.001 0.9)
    as (self & E & W & _); [lia | lia |].
  exists self. split; [exact E|]. split; [|split].
  - destruct (forward_accepts self _ _ 2 [784]%nat flat_batch W eq_refl eq_refl)
      as (H & _ & _).
    eexists. split; [apply H; [repeat constructor | reflexivity] | reflexivity].
  - destruct (forward_accepts self _ _ 2 [1; 27; 28]%nat small_batch W eq_refl eq_refl)
      as (_ & _ & H).
    apply H; [repeat constructor | discriminate].
  - destruct (forward_accepts self _ _ 0 [1; 28; 28]%nat
                (mkTensor [0; 1; 28; 28]%nat []) W eq_refl eq_refl)
      as (_ & H & _).
    apply H. reflexivity.
Defined.

(** ** The schedule, epoch after epoch *)





(** ** [setup] *)

Lemma random_split_wrong_total {D : Type} (len : D -> nat)
    (randperm : nat -> list nat) (ds : D) (a b : N) :
  N.of_nat (len ds) <> (a + b)%N ->
  data.random_split len randperm ds [a; b] = Raise ValueError.
Proof.
  intros H. unfold data.random_split, data.sum. cbn [fold_left].
  destruct (N.eqb_spec (0 + a + b) (N.of_nat (len ds))) as [E|_]; [|reflexivity].
  exfalso. apply H. lia.
Qed.

(** X7.  [setup] in stage [fit] refuses a training set that does not hold
    exactly 60000 examples: [random_split] raises [ValueError] and no data
    module comes back. *)
Theorem setup_fit_wrong_size (train_files test_files : list (tensor Z * Z))
    (randperm : nat -> list nat) (self : MNISTDataModule) :
  N.of_nat (length train_files) <> 60000%N ->
  setup train_files test_files randperm self "fit" = Raise ValueError.
Proof.
  intros H. unfold setup.
  change (String.eqb "fit" "fit") with true. cbv iota.
  rewrite random_split_wrong_total; [reflexivity|].
  unfold MNIST_len. cbn [examples]. exact H.
Qed.

Lemma setup_fit_wrong_size_witness :
  setup [grey_file; grey_file] [] (fun n => seq 0 n) (dm 32) "fit"
  = Raise ValueError.
Proof.
  apply (setup_fit_wrong_size [grey_file; grey_file] [] (fun n => seq 0 n) (dm 32)).
  discriminate.
Defined.

(** X8.  The two stages of [setup] do not interfere: [test] only sets the
    held-out set, [fit] only sets the two splits, whatever was set before
    stays, and running the two stages in either order leaves the same data
    module. *)
Theorem setup_stages_commute (train_files test_files : list (tensor Z * Z))
    (randperm : nat -> list nat) (self : MNISTDataModule) :
  N.of_nat (length train_files) = 60000%N ->
  exists tr va te,
    setup train_files test_files randperm self "fit"
    = Ok (mkDataModule (batch_size self) (normalization_vector self)
            (Some tr) (Some va) (mnist_test self)) /\
    setup train_files test_files randperm self "test"
    = Ok (mkDataModule (batch_size self) (normalization_vector self)
            (mnist_train self) (mnist_val self) (Some te)) /\
    examples te = test_files /\
    let both := Ok (mkDataModule (batch_size self) (normalization_vector self)
                      (Some tr) (Some va) (Some te)) in
    rbind (setup train_files test_files randperm self "fit")
          (fun self' => setup train_files test_files randperm self' "test")
    = both /\
    rbind (setup train_files test_files randperm self "test")
          (fun self' => setup train_files test_files randperm self' "fit")
    = both.
Proof.
  intros Hlen.
  assert (H : length train_files = (N.to_nat 55000 + N.to_nat 5000)%nat) by lia.
  pose proof (fun d => setup_fit_run train_files test_files randperm d H) as Fit.
  cbv zeta in Fit.
  assert (Test : forall d : MNISTDataModule,
             setup train_files test_files randperm d "test"
             = Ok (mkDataModule (batch_size d) (normalization_vector d)
                     (mnist_train d) (mnist_val d)
                     (Some (mkMNIST test_files
                              (compose_transform (normalization_vector d)))))).
  { intros d. reflexivity. }
  do 3 eexists. split; [apply Fit|]. split; [apply Test|].
  split; [reflexivity|]. cbv zeta. split.
  - rewrite Fit. cbn [rbind]. rewrite Test. reflexivity.
  - rewrite Test. cbn [rbind]. rewrite Fit. reflexivity.
Qed.

Lemma setup_stages_commute_witness :
  rbind (setup (repeat grey_file (N.to_nat 60000)) [grey_file]
               (fun n => seq 0 n) (dm 32) "fit")
        (fun self' => setup (repeat grey_file (N.to_nat 60000)) [grey_file]
                            (fun n => seq 0 n) self' "test")
  = rbind (setup (repeat grey_file (N.to_nat 60000)) [grey_file]
                 (fun n => seq 0 n) (dm 32) "test")
          (fun self' => setup (repeat grey_file (N.to_nat 60000)) [grey_file]
                              (fun n => seq 0 n) self' "fit").
Proof.
  destruct (setup_stages_commute (repeat grey_file (N.to_nat 60000)) [grey_file]
              (fun n => seq 0 n) (dm 32))
    as (tr & va & te & _ & _ & _ & E1 & E2).
  - rewrite repeat_length. apply N2Nat.id.
  - cbv zeta in E1, E2. now rewrite E1, E2.
Defined.

(** ** More on the rescaled image *)



(** ** The keys of the uploads *)

Lemma to_int_not_nil (z : Z) :
  Z.to_int z <> Decimal.Pos Decimal.Nil /\ Z.to_int z <> Decimal.Neg Decimal.Nil.
Proof.
  destruct z as [|p|p]; cbn; split; try discriminate; intros E; injection E as E;
    exact (DecimalPos.Unsigned.to_uint_nonnil p E).
Qed.

Lemma str_int_inj (a b : Z) : str_int a = str_int b -> a = b.
Proof.
  unfold str_int. intros E.
  apply DecimalZ.to_int_inj.
  destruct (to_int_not_nil a) as [A1 A2]. destruct (to_int_not_nil b) as [B1 B2].
  pose proof (NilZero.isi _ A1 A2) as Ia. pose proof (NilZero.isi _ B1 B2) as Ib.
  rewrite E in Ia. rewrite Ia in Ib. now injection Ib.
Qed.

Lemma append_inj_r (p a b : string) : (p ++ a = p ++ b)%string -> a = b.
Proof.
  induction p as [|c p IH]; cbn; intros E; [exact E|].
  injection E as E. now apply IH.
Qed.

(** X10.  The key under which [validation_epoch_end] sends its images
    names the epoch: the images of two different epochs never go under one
    key, and never under the key of the misclassified test images. *)
Theorem upload_keys_distinct (e1 e2 : nat) (d1 d2 : prediction) :
  e1 <> e2 ->
  event_key (upload_prediction e1 d1) <> event_key (upload_prediction e2 d2) /\
  event_key (upload_prediction e1 d1) <> "test/misclassified_images"%string.
Proof.
  unfold upload_prediction. cbn [event_key]. intros Hne. split.
  - intros Hk. apply (append_inj_r "val/preds/epoch_") in Hk.
    unfold str_nat in Hk. apply str_int_inj in Hk. lia.
  - discriminate.
Qed.

Lemma upload_keys_distinct_witness :
  event_key (upload_prediction 5 example_prediction)
  <> event_key (upload_prediction 15 example_prediction).
Proof.
  apply (upload_keys_distinct 5 15 example_prediction example_prediction).
  discriminate.
Defined.

(** ** The training step *)

(** X11.  On a batch of [n >= 1] images with [n] labels that the loss
    accepts, [training_step] logs the loss and then the accuracy of the
    batch, a number between 0 and 1, and returns the loss with as many
    predicted as true labels; when the loss refuses the batch the step
    raises what the loss raised and logs nothing. *)
Theorem training_step_logs (F_cross_entropy : tensor Q -> list Z -> result Q)
    (self : LitModel) (h1 h2 n : nat) (x : tensor Q) (y : list Z)
    (s : list event) :
  wf_model self h1 h2 ->
  (1 <= n)%nat -> shape x = [n; 1; 28; 28]%nat -> wf_tensor x ->
  length y = n ->
  let y_hat := mkTensor [n; 10]%nat (flat_map (scores self) (rows n 784 (data x))) in
  let yp := map (predicted self) (rows n 784 (data x)) in
  (forall l, F_cross_entropy y_hat y = Ok l ->
     exists q,
       training_step F_cross_entropy self (x, y) s
       = (Ok (mkOutput l y yp None),
          s ++ [self_log "train/batch/loss" (Fin l);
                self_log "train/batch/acc" (Fin q)]) /\
       0 <= q <= 1 /\ length yp = length y) /\
  (forall e, F_cross_entropy y_hat y = Raise e ->
     training_step F_cross_entropy self (x, y) s = (Raise e, s)).
Proof.
  intros W Hn Hs Hw Hy y_hat yp.
  assert (Hyp : length yp = n) by (unfold yp; now rewrite length_map, length_rows).
  split.
  - intros l Hce.
    assert (Hne : y <> []) by (intros E; rewrite E in Hy; cbn in Hy; lia).
    assert (Hl : length y = length yp) by congruence.
    pose proof (accuracy_score_value y yp Hne Hl) as Eq.
    set (q := Qsum (map2 agree y yp) / inject_Z (Z.of_nat (length y))) in *.
    assert (Hq : 0 <= q <= 1).
    { destruct (Qsum_agree_bounds y yp) as [L U].
      rewrite length_map2 in U by exact Hl.
      apply unit_fraction; [lia | exact L | exact U]. }
    exists q. split; [|split; [exact Hq | congruence]].
    unfold training_step.
    unfold bind at 1, lift at 1. rewrite (forward_run self h1 h2 n x W Hn Hs Hw).
    unfold bind at 1, lift at 1. fold y_hat. rewrite Hce.
    unfold bind at 1, emit at 1.
    unfold bind at 1, lift at 1. unfold y_hat.
    rewrite (argmax_forward self h1 h2 n _ W). fold yp.
    unfold bind at 1, lift at 1. rewrite Eq.
    unfold bind, emit, ret. now rewrite <- app_assoc.
  - intros e Hce. unfold training_step.
    unfold bind at 1, lift at 1. rewrite (forward_run self h1 h2 n x W Hn Hs Hw).
    unfold bind at 1, lift at 1. fold y_hat. now rewrite Hce.
Qed.

Lemma training_step_logs_witness :
  exists self q yp,
    LitModel_init (fun _ _ _ => 0) (fun _ _ => 1) 2 3 0.001 0.9 = Ok self /\
    training_step (fun _ _ => Ok 0.25) self (blank_batch, [3%Z]) []
    = (Ok (mkOutput 0.25 [3%Z] yp None),
       [] ++ [self_log "train/batch/loss" (Fin 0.25);
              self_log "train/batch/acc" (Fin q)]) /\
    0 <= q <= 1.
Proof.
  destruct (LitModel_init_wf (fun _ _ _ => 0) (fun _ _ => 1) 2 3 0.001 0.9)
    as (self & E & W & _); [lia | lia |].
  destruct (training_step_logs (fun _ _ => Ok 0.25) self _ _ 1 blank_batch [3%Z] [] W)
    as (H & _); [apply le_n | reflexivity | reflexivity | reflexivity |].
  destruct (H 0.25 eq_refl) as (q & Eq & Hq & _).
  exists self, q. eexists. split; [exact E|]. split; [exact Eq | exact Hq].
Defined.

(** ** The transform of the data module *)

(** X12.  A zero in the std of the normalization vector is not noticed by
    [setup]: the stage [test] succeeds, and it is every later access to an
    example of the held-out set that raises [ValueError]. *)
Theorem zero_std_fails_on_access (train_files test_files : list (tensor Z * Z))
    (randperm : nat -> list nat) (self : MNISTDataModule) (i : nat) :
  Exists (fun sd => sd == 0) (snd (normalization_vector self)) ->
  Forall (fun e => grey28 (fst e)) test_files ->
  (i < length test_files)%nat ->
  exists self' te,
    setup train_files test_files randperm self "test" = Ok self' /\
    mnist_test self' = Some te /\
    MNIST_len te = length test_files /\
    MNIST_getitem te i = Raise ValueError.
Proof.
  intros Hz Hg Hi.
  do 2 eexists. split; [reflexivity|]. cbn [mnist_test].
  split; [reflexivity|]. split; [reflexivity|].
  unfold MNIST_getitem. cbn [examples transform].
  rewrite (index_nth test_files i (mkTensor [] [], 0%Z) Hi). cbn [rbind].
  rewrite Forall_forall in Hg.
  destruct (Hg _ (nth_In test_files (mkTensor [] [], 0%Z) Hi)) as (Hs & _).
  unfold compose_transform, transforms.Normalize, transforms.ToTensor.
  cbn [shape]. rewrite Hs.
  assert (E : existsb (fun s => Qeq_bool s 0) (snd (normalization_vector self)) = true).
  { apply existsb_exists. apply Exists_exists in Hz as (sd & Hin & Hsd).
    exists sd. split; [exact Hin | now apply Qeq_bool_iff]. }
  now rewrite E.
Qed.

Lemma zero_std_fails_on_access_witness :
  exists self' te,
    setup [] [grey_file] (fun n => seq 0 n)
          (MNISTDataModule_init 32 ([0.1307], [0])) "test" = Ok self' /\
    mnist_test self' = Some te /\
    MNIST_getitem te 0 = Raise ValueError.
Proof.
  destruct (zero_std_fails_on_access [] [grey_file] (fun n => seq 0 n)
              (MNISTDataModule_init 32 ([0.1307], [0])) 0)
    as (self' & te & E & Et & _ & Eg).
  - left. reflexivity.
  - repeat constructor.
  - cbn. lia.
  - exists self', te. repeat split; assumption.
Defined.

Lemma byte_to_unit (p : Z) : (0 <= p <= 255)%Z -> 0 <= inject_Z p / 255 <= 1.
Proof.
  intros [L U]. split.
  - apply Qle_shift_div_l; [reflexivity|]. rewrite Qmult_0_l.
    change 0 with (inject_Z 0). now rewrite <- Zle_Qle.
  - apply Qle_shift_div_r; [reflexivity|]. rewrite Qmult_1_l.
    change 255 with (inject_Z 255). now rewrite <- Zle_Qle.
Qed.

(** X13.  On a batch of the data set of the script, the example image
    that [validation_step] returns is a 28 by 28 image whose pixels all lie
    between 0 and 1. *)
Theorem validation_image_is_unit_range
    (F_cross_entropy : tensor Q -> list Z -> result Q)
    (F_softmax : list Q -> list Q) (str_float : Q -> string)
    (self : LitModel) (h1 h2 : nat) (files : list (tensor Z * Z)) (bs : Z)
    (i0 : nat) (rest : list nat) (l : Q) :
  wf_model self h1 h2 ->
  Forall (fun e => grey28 (fst e) /\ bytes (fst e)) files ->
  Forall (fun i => (i < length files)%nat) (i0 :: rest) ->
  (forall x y y_hat,
     fetch (script_dataset files bs) (i0 :: rest) = Ok (x, y) ->
     forward self x = Ok y_hat -> F_cross_entropy y_hat y = Ok l) ->
  exists x y out p,
    fetch (script_dataset files bs) (i0 :: rest) = Ok (x, y) /\
    validation_step F_cross_entropy F_softmax str_float self (x, y) = Ok out /\
    predictions out = Some p /\
    shape (img p) = [28; 28]%nat /\
    length (data (img p)) = 784%nat /\
    Forall (fun v => 0 <= v <= 1) (data (img p)).
Proof.
  intros W Hgb Hi Hce.
  assert (Hg : Forall (fun e => grey28 (fst e)) files).
  { eapply Forall_impl; [|exact Hgb]. now intros e [H _]. }
  pose proof (fetch_run files bs (i0 :: rest) Hg ltac:(discriminate) Hi) as Ef.
  set (n := length (i0 :: rest)) in *.
  set (x := mkTensor (n :: [1; 28; 28]%nat)
                     (concat (map (normalized_pixels files) (i0 :: rest)))) in *.
  set (y := map (label_of files) (i0 :: rest)) in *.
  assert (Hn : (1 <= n)%nat) by (unfold n; cbn [length]; lia).
  assert (Hs : shape x = [n; 1; 28; 28]%nat) by reflexivity.
  assert (Hw : wf_tensor x).
  { unfold wf_tensor, x. cbn [shape data numel fold_right].
    rewrite <- flat_map_concat_map, (length_flat_map_const _ 784).
    - fold n. lia.
    - rewrite Forall_forall in Hi |- *. intros i Hin.
      now apply normalized_pixels_length, Hi. }
  assert (Hy : length y = n) by (unfold y, n; now rewrite length_map).
  pose proof (Hce x y _ Ef (forward_run self h1 h2 n x W Hn Hs Hw)) as Hl.
  destruct (validation_step_run F_cross_entropy F_softmax str_float
              self h1 h2 n x y l W Hn Hs Hw Hy Hl) as (nm & descr & Ev).
  do 4 eexists. split; [exact Ef|]. split; [exact Ev|].
  cbn [predictions img shape data]. split; [reflexivity|]. split; [reflexivity|].
  pose proof (normalized_pixels_length files i0 Hg (Forall_inv Hi)) as L.
  assert (Hp : pixels x 0 = normalized_pixels files i0).
  { unfold pixels, x. cbn [data map concat Nat.mul skipn].
    rewrite firstn_app, L, Nat.sub_diag, firstn_O, app_nil_r.
    apply firstn_all2. lia. }
  cbn [img data]. rewrite Hp. split; [now rewrite length_map|].
  unfold normalized_pixels, transforms.ToTensor. cbn [data].
  rewrite !map_map. apply Forall_forall. intros v Hv.
  apply in_map_iff in Hv as (b & <- & Hb).
  rewrite denormalize_normalize.
  apply byte_to_unit.
  rewrite Forall_forall in Hgb.
  destruct (Hgb _ (nth_In files (mkTensor [] [], 0%Z) (Forall_inv Hi))) as (_ & Hbytes).
  unfold bytes in Hbytes. rewrite Forall_forall in Hbytes. now apply Hbytes.
Qed.

Lemma validation_image_is_unit_range_witness :
  exists self x y out p,
    LitModel_init (fun _ _ _ => 0) (fun _ _ => 1) 2 3 0.001 0.9 = Ok self /\
    fetch (script_dataset [grey_file] 32) [0%nat] = Ok (x, y) /\
    validation_step (fun _ _ => Ok 0) (fun r => r) (fun _ => "0"%string)
                    self (x, y) = Ok out /\
    predictions out = Some p /\
    Forall (fun v => 0 <= v <= 1) (data (img p)).
Proof.
  destruct (LitModel_init_wf (fun _ _ _ => 0) (fun _ _ => 1) 2 3 0.001 0.9)
    as (self & E & W & _); [lia | lia |].
  destruct (validation_image_is_unit_range
              (fun _ _ => Ok 0) (fun r => r) (fun _ => "0"%string)
              self _ _ [grey_file] 32 0%nat [] 0 W)
    as (x & y & out & p & Ef & Ev & Ep & _ & _ & Hq).
  - constructor; [|constructor]. split; [split; reflexivity|].
    unfold bytes, grey_file. cbn [fst data].
    apply Forall_forall. intros b Hb. apply repeat_spec in Hb. subst. lia.
  - repeat constructor.
  - intros; reflexivity.
  - exists self, x, y, out, p. repeat split; assumption.
Defined.

(** ** The batches of a loader *)

Lemma batch_sampler_spec (bs : nat) (sampler batch : list nat) :
  (1 <= bs)%nat -> (length batch < bs)%nat ->
  let bl := batch_sampler bs sampler batch in
  concat bl = batch ++ sampler /\
  Forall (fun b => (1 <= length b <= bs)%nat) bl /\
  length bl = ((length batch + length sampler + bs - 1) / bs)%nat.
Proof.
  intros Hbs. revert batch.
  induction sampler as [|idx rest IH]; intros batch Hb; cbn [batch_sampler].
  - destruct (Nat.ltb_spec 0 (length batch)) as [Hpos|Hz].
    + cbn [concat length]. rewrite !app_nil_r. repeat split.
      * constructor; [lia | constructor].
      * apply Nat.div_unique with (r := (length batch - 1)%nat); lia.
    + cbn [concat length]. assert (batch = []) by (destruct batch; [reflexivity | cbn in Hz; lia]).
      subst. cbn [app length]. repeat split.
      * constructor.
      * symmetry. apply Nat.div_small. lia.
  - cbv zeta. rewrite length_app. cbn [length].
    destruct (Nat.eqb_spec (length batch + 1) bs) as [E|E].
    + destruct (IH [] ltac:(cbn; lia)) as (C & F & L).
      cbn [concat]. rewrite C. cbn [app]. rewrite <- app_assoc. cbn [app].
      repeat split.
      * constructor; [rewrite length_app; cbn; lia | exact F].
      * cbn [length]. rewrite L. cbn [length].
        replace (length batch + S (length rest) + bs - 1)%nat
          with (0 + length rest + bs - 1 + 1 * bs)%nat by lia.
        rewrite Nat.div_add by lia. lia.
    + destruct (IH (batch ++ [idx])) as (C & F & L).
      { rewrite length_app. cbn. lia. }
      rewrite C, <- app_assoc. cbn [app]. repeat split.
      * exact F.
      * rewrite L, length_app. cbn [length]. f_equal. lia.
Qed.

Lemma batch_sampler_full (bs : nat) (sampler batch : list nat) :
  (1 <= bs)%nat -> (length batch < bs)%nat ->
  Forall (fun b => length b = bs) (removelast (batch_sampler bs sampler batch)).
Proof.
  intros Hbs. revert batch.
  induction sampler as [|idx rest IH]; intros batch Hb; cbn [batch_sampler].
  - destruct (0 <? length batch)%nat; constructor.
  - cbv zeta. rewrite length_app. cbn [length].
    destruct (Nat.eqb_spec (length batch + 1) bs) as [E|E].
    + pose proof (IH [] ltac:(cbn; lia)) as F.
      destruct (batch_sampler bs rest []) as [|b bl] eqn:R.
      * constructor.
      * change (removelast ((batch ++ [idx]) :: b :: bl))
          with ((batch ++ [idx]) :: removelast (b :: bl)).
        constructor; [rewrite length_app; cbn; lia | exact F].
    + apply IH. rewrite length_app. cbn. lia.
Qed.

Lemma index_batches_spec (n : nat) (batch_size : Z) :
  (0 < batch_size)%Z ->
  let bl := index_batches n batch_size in
  concat bl = seq 0 n /\
  Forall (fun b => (1 <= Z.of_nat (length b) <= batch_size)%Z) bl /\
  Forall (fun b => Z.of_nat (length b) = batch_size) (removelast bl) /\
  Z.of_nat (length bl) = ((Z.of_nat n + batch_size - 1) / batch_size)%Z.
Proof.
  intros Hbs. unfold index_batches.
  assert (H1 : (1 <= Z.to_nat batch_size)%nat) by lia.
  destruct (batch_sampler_spec (Z.to_nat batch_size) (seq 0 n) [] H1 ltac:(cbn; lia))
    as (C & F & L).
  pose proof (batch_sampler_full (Z.to_nat batch_size) (seq 0 n) [] H1 ltac:(cbn; lia))
    as Ffull.
  split; [exact C|]. split; [|split].
  - eapply Forall_impl; [|exact F]. cbv beta. intros b Hb. lia.
  - eapply Forall_impl; [|exact Ffull]. cbv beta. intros b Hb. lia.
  - rewrite L. cbn [length]. rewrite length_seq, Nat2Z.inj_div.
    f_equal; lia.
Qed.

Lemma permutation_in_range (perm : list nat) (n : nat) :
  Permutation perm (seq 0 n) -> Forall (fun i => (i < n)%nat) perm.
Proof.
  intros P. apply Forall_forall. intros i Hi.
  apply (Permutation_in _ P) in Hi. apply in_seq in Hi. lia.
Qed.

Lemma Forall_firstn {A : Type} (P : A -> Prop) (k : nat) (l : list A) :
  Forall P l -> Forall P (firstn k l).
Proof.
  intros H. rewrite <- (firstn_skipn k l) in H.
  now apply Forall_app in H as [H _].
Qed.

Lemma Forall_skipn {A : Type} (P : A -> Prop) (k : nat) (l : list A) :
  Forall P l -> Forall P (skipn k l).
Proof.
  intros H. rewrite <- (firstn_skipn k l) in H.
  now apply Forall_app in H as [_ H].
Qed.

(** The two splits that [setup] leaves in stage [fit]. *)
Lemma setup_fit_facts (train_files test_files : list (tensor Z * Z))
    (randperm : nat -> list nat) (self : MNISTDataModule) :
  N.of_nat (length train_files) = 60000%N ->
  Permutation (randperm (length train_files)) (seq 0 (length train_files)) ->
  exists tr va,
    setup train_files test_files randperm self "fit"
    = Ok (mkDataModule (batch_size self) (normalization_vector self)
                       (Some tr) (Some va) (mnist_test self)) /\
    data.dataset tr
    = mkMNIST train_files (compose_transform (normalization_vector self)) /\
    data.dataset va
    = mkMNIST train_files (compose_transform (normalization_vector self)) /\
    Z.of_nat (Subset_len tr) = 55000%Z /\
    Z.of_nat (Subset_len va) = 5000%Z /\
    Forall (fun i => (i < length train_files)%nat) (data.indices tr) /\
    Forall (fun i => (i < length train_files)%nat) (data.indices va).
Proof.
  intros Hlen Hperm.
  assert (H : length train_files = (N.to_nat 55000 + N.to_nat 5000)%nat) by lia.
  do 2 eexists. split; [exact (setup_fit_run _ test_files randperm self H)|].
  cbn [data.dataset data.indices]. unfold Subset_len. cbn [data.indices].
  split; [reflexivity|]. split; [reflexivity|].
  pose proof (permutation_in_range _ _ Hperm) as R.
  rewrite H in Hperm.
  destruct (cut_permutation _ _ _ Hperm) as (La & Lb & _).
  rewrite La, Lb. rewrite <- H.
  split; [lia|]. split; [lia|]. split.
  - now apply Forall_firstn.
  - now apply Forall_firstn, Forall_skipn.
Qed.

(** X14.  After [setup] in stage [fit], the training and the validation
    loader walk through the 55000 and the 5000 positions of their split in
    order, in batches that hold between 1 and [batch_size] positions, all
    but the last exactly [batch_size]; there are ceil(55000 / batch_size)
    and ceil(5000 / batch_size) batches.  A batch size that is not positive
    is refused when a loader is built. *)
Theorem loaders_walk_in_order (train_files test_files : list (tensor Z * Z))
    (randperm : nat -> list nat) (self : MNISTDataModule) :
  N.of_nat (length train_files) = 60000%N ->
  Permutation (randperm (length train_files)) (seq 0 (length train_files)) ->
  exists self' tr va,
    setup train_files test_files randperm self "fit" = Ok self' /\
    mnist_train self' = Some tr /\
    mnist_val self' = Some va /\
    ((batch_size self <= 0)%Z ->
     train_dataloader self' = Raise ValueError /\
     val_dataloader self' = Raise ValueError) /\
    ((0 < batch_size self)%Z ->
     train_dataloader self' = Ok (mkDataLoader (Some tr) (batch_size self) 4) /\
     val_dataloader self' = Ok (mkDataLoader (Some va) (batch_size self) 4) /\
     walks_in_order 55000 (batch_size self) (Subset_len tr) /\
     walks_in_order 5000 (batch_size self) (Subset_len va)).
Proof.
  intros Hlen Hperm.
  destruct (setup_fit_facts train_files test_files randperm self Hlen Hperm)
    as (tr & va & Fit & _ & _ & Ltr & Lva & _).
  do 3 eexists. split; [exact Fit|]. cbn [mnist_train mnist_val].
  split; [reflexivity|]. split; [reflexivity|].
  unfold train_dataloader, val_dataloader, new_DataLoader.
  cbn [mnist_train mnist_val batch_size].
  change (4 <? 0)%Z with false. cbv iota.
  split.
  - intros Hb. destruct (Z.leb_spec (batch_size self) 0); [split; reflexivity | lia].
  - intros Hb. destruct (Z.leb_spec (batch_size self) 0); [lia|].
    split; [reflexivity|]. split; [reflexivity|].
    unfold walks_in_order. cbv zeta.
    destruct (index_batches_spec (Subset_len tr) (batch_size self) Hb)
      as (C & F & Ff & L).
    destruct (index_batches_spec (Subset_len va) (batch_size self) Hb)
      as (C' & F' & Ff' & L').
    rewrite Ltr in L. rewrite Lva in L'. repeat split; assumption.
Qed.

Lemma loaders_walk_in_order_witness :
  exists self' tr va,
    setup (repeat grey_file (N.to_nat 60000)) [] (fun n => seq 0 n) (dm 32) "fit"
    = Ok self' /\
    train_dataloader self' = Ok (mkDataLoader (Some tr) 32 4) /\
    val_dataloader self' = Ok (mkDataLoader (Some va) 32 4) /\
    Z.of_nat (length (index_batches (Subset_len tr) 32)) = 1719%Z /\
    Z.of_nat (length (index_batches (Subset_len va) 32)) = 157%Z.
Proof.
  destruct (loaders_walk_in_order (repeat grey_file (N.to_nat 60000)) []
              (fun n => seq 0 n) (dm 32))
    as (self' & tr & va & E & _ & _ & _ & H).
  - rewrite repeat_length. apply N2Nat.id.
  - apply Permutation_refl.
  - destruct H as (Et & Ev & (_ & _ & _ & _ & Lt) & (_ & _ & _ & _ & Lv));
      [reflexivity|].
    exists self', tr, va. repeat split; assumption.
Defined.

(** ** From the loaders to the model *)

Lemma mapM_ext_in {A B : Type} (f g : A -> result B) (l : list A) :
  (forall a, In a l -> f a = g a) -> mapM f l = mapM g l.
Proof.
  induction l as [|a l IH]; intros H; [reflexivity|].
  cbn [mapM]. rewrite (H a (or_introl eq_refl)).
  rewrite IH by (intros; apply H; now right). reflexivity.
Qed.

Lemma mapM_map {A B C : Type} (f : B -> result C) (g : A -> B) (l : list A) :
  mapM f (map g l) = mapM (fun a => f (g a)) l.
Proof.
  induction l as [|a l IH]; [reflexivity|].
  cbn [map mapM]. now rewrite IH.
Qed.

(** Reading a batch of a split is reading the batch of the underlying
    examples. *)
Lemma mapM_Subset_getitem (s : data.Subset MNIST) (ps : list nat) :
  Forall (fun p => (p < Subset_len s)%nat) ps ->
  mapM (Subset_getitem s) ps
  = mapM (MNIST_getitem (data.dataset s))
         (map (fun p => nth p (data.indices s) 0%nat) ps).
Proof.
  intros H. rewrite mapM_map. apply mapM_ext_in. intros p Hp.
  rewrite Forall_forall in H. unfold Subset_getitem.
  now rewrite (index_nth (data.indices s) p 0%nat (H p Hp)).
Qed.

Lemma rows_concat_images (files : list (tensor Z * Z)) (idxs : list nat) :
  Forall (fun e => grey28 (fst e)) files ->
  Forall (fun i => (i < length files)%nat) idxs ->
  rows (length idxs) 784 (concat (map (normalized_pixels files) idxs))
  = map (normalized_pixels files) idxs.
Proof.
  intros Hg Hi. rewrite <- flat_map_concat_map.
  apply (rows_flat_map (normalized_pixels files) 784 idxs).
  rewrite Forall_forall in Hi |- *. intros i Hin.
  now apply normalized_pixels_length, Hi.
Qed.

(** The forward pass on a batch of the data set of the script. *)
Lemma batch_forward (self : LitModel) (h1 h2 : nat)
    (files : list (tensor Z * Z)) (idxs : list nat) :
  wf_model self h1 h2 ->
  Forall (fun e => grey28 (fst e)) files ->
  idxs <> [] ->
  Forall (fun i => (i < length files)%nat) idxs ->
  forward self (mkTensor (length idxs :: [1; 28; 28]%nat)
                         (concat (map (normalized_pixels files) idxs)))
  = Ok (mkTensor [length idxs; 10]%nat
          (flat_map (scores self) (map (normalized_pixels files) idxs))).
Proof.
  intros W Hg Hne Hi.
  rewrite (forward_run self h1 h2 (length idxs) _ W).
  - cbn [data]. now rewrite rows_concat_images.
  - destruct idxs; [congruence | cbn; lia].
  - reflexivity.
  - unfold wf_tensor. cbn [shape data numel fold_right].
    rewrite <- flat_map_concat_map, (length_flat_map_const _ 784).
    + lia.
    + rewrite Forall_forall in Hi |- *. intros i Hin.
      now apply normalized_pixels_length, Hi.
Qed.

Lemma concat_in_range (bl : list (list nat)) (n : nat) :
  concat bl = seq 0 n ->
  Forall (fun b => Forall (fun p => (p < n)%nat) b) bl.
Proof.
  intros C. apply Forall_forall. intros b Hb.
  apply Forall_forall. intros p Hp.
  assert (Hin : In p (concat bl)) by (apply in_concat; eauto).
  rewrite C in Hin. apply in_seq in Hin. lia.
Qed.

(** X15.  Every batch the training loader of the script yields after
    [setup] in stage [fit] can be read and passes through the model: it is
    a tensor of shape (B, 1, 28, 28) with B labels, 1 <= B <= batch_size,
    and the forward pass returns scores of shape (B, 10). *)
Theorem train_batches_pass_forward (self : LitModel) (h1 h2 : nat)
    (train_files test_files : list (tensor Z * Z))
    (randperm : nat -> list nat) (bs : Z) :
  wf_model self h1 h2 ->
  (0 < bs)%Z ->
  N.of_nat (length train_files) = 60000%N ->
  Forall (fun e => grey28 (fst e)) train_files ->
  Permutation (randperm (length train_files)) (seq 0 (length train_files)) ->
  exists dm' tr,
    setup train_files test_files randperm (dm bs) "fit" = Ok dm' /\
    mnist_train dm' = Some tr /\
    train_dataloader dm' = Ok (mkDataLoader (Some tr) bs 4) /\
    Forall (fun batch =>
              exists x y B y_hat,
                batch = Ok (x, y) /\
                shape x = [B; 1; 28; 28]%nat /\
                (1 <= Z.of_nat B <= bs)%Z /\
                length y = B /\
                forward self x = Ok y_hat /\
                shape y_hat = [B; 10]%nat)
           (loader_batches Subset_len Subset_getitem tr bs).
Proof.
  intros W Hbs Hlen Hg Hperm.
  destruct (setup_fit_facts train_files test_files randperm (dm bs) Hlen Hperm)
    as (tr & va & Fit & Dtr & _ & _ & _ & Rtr & _).
  do 2 eexists. split; [exact Fit|]. cbn [mnist_train]. split; [reflexivity|].
  split.
  { unfold train_dataloader, new_DataLoader. cbn [mnist_train batch_size dm
      MNISTDataModule_init].
    change (4 <? 0)%Z with false. cbv iota.
    destruct (Z.leb_spec bs 0); [lia | reflexivity]. }
  unfold loader_batches.
  destruct (index_batches_spec (Subset_len tr) bs Hbs) as (C & F & _ & _).
  pose proof (concat_in_range _ _ C) as R.
  apply Forall_forall. intros batch Hb.
  apply in_map_iff in Hb as (ps & <- & Hps).
  rewrite Forall_forall in F, R.
  pose proof (F ps Hps) as Fps. pose proof (R ps Hps) as Rps. cbv beta in Fps.
  rewrite (mapM_Subset_getitem tr ps Rps), Dtr.
  set (idxs := map (fun p => nth p (data.indices tr) 0%nat) ps).
  assert (Hne : idxs <> []).
  { unfold idxs. destruct ps; [cbn in Fps; lia | discriminate]. }
  assert (Hi : Forall (fun i => (i < length train_files)%nat) idxs).
  { unfold idxs. apply Forall_forall. intros i Hin.
    apply in_map_iff in Hin as (p & <- & Hp).
    rewrite Forall_forall in Rtr, Rps. apply Rtr, nth_In.
    exact (Rps p Hp). }
  pose proof (fetch_run train_files bs idxs Hg Hne Hi) as Ef.
  unfold fetch, script_dataset in Ef. cbn [normalization_vector dm MNISTDataModule_init] in *.
  rewrite Ef.
  do 4 eexists. split; [reflexivity|].
  assert (Li : length idxs = length ps) by (unfold idxs; apply length_map).
  split; [reflexivity|]. split; [lia|]. split; [now rewrite length_map|].
  split; [exact (batch_forward self h1 h2 train_files idxs W Hg Hne Hi) | reflexivity].
Qed.

Lemma train_batches_pass_forward_witness :
  exists self dm' tr,
    LitModel_init (fun _ _ _ => 0) (fun _ _ => 1) 2 3 0.001 0.9 = Ok self /\
    setup (repeat grey_file (N.to_nat 60000)) [] (fun n => seq 0 n) (dm 32) "fit"
    = Ok dm' /\
    train_dataloader dm' = Ok (mkDataLoader (Some tr) 32 4) /\
    Forall (fun batch =>
              exists x y y_hat, batch = Ok (x, y) /\ forward self x = Ok y_hat)
           (loader_batches Subset_len Subset_getitem tr 32).
Proof.
  destruct (LitModel_init_wf (fun _ _ _ => 0) (fun _ _ => 1) 2 3 0.001 0.9)
    as (self & E & W & _); [lia | lia |].
  destruct (train_batches_pass_forward self _ _
              (repeat grey_file (N.to_nat 60000)) [] (fun n => seq 0 n) 32 W)
    as (dm' & tr & Es & _ & Ed & F).
  - reflexivity.
  - rewrite repeat_length. apply N2Nat.id.
  - apply Forall_forall. intros e He. apply repeat_spec in He. subst.
    split; reflexivity.
  - apply Permutation_refl.
  - exists self, dm', tr. split; [exact E|]. split; [exact Es|]. split; [exact Ed|].
    eapply Forall_impl; [|exact F]. cbv beta.
    intros batch (x & y & B & y_hat & Eb & _ & _ & _ & Ef & _).
    exists x, y, y_hat. split; assumption.
Defined.

(** ** The labels of the confusion matrix *)

Lemma argmax_scores (self : LitModel) (h1 h2 : nat) (rs : list (list Q)) :
  wf_model self h1 h2 ->
  torch.argmax_axis1 (mkTensor [length rs; 10]%nat (flat_map (scores self) rs))
  = Ok (map (predicted self) rs).
Proof.
  intros W. unfold torch.argmax_axis1. cbn [shape data Nat.eqb].
  rewrite (rows_flat_map (scores self) 10 rs).
  - now rewrite map_map.
  - apply Forall_forall. intros r _. now apply (scores_length self h1 h2).
Qed.

Lemma map_nth_seq {A B : Type} (f : A -> B) (l : list A) (d : A) :
  map (fun i => f (nth i l d)) (seq 0 (length l)) = map f l.
Proof.
  induction l as [|a l IH]; [reflexivity|].
  cbn [length seq map nth]. f_equal.
  rewrite <- seq_shift, map_map. exact IH.
Qed.

(** The accumulation of [log_confusion_matrix] over batches of the data
    set of the script, from labels already collected. *)
Lemma confusion_fold (self : LitModel) (h1 h2 : nat)
    (files : list (tensor Z * Z)) (bs : Z) (bl : list (list nat)) :
  wf_model self h1 h2 ->
  Forall (fun e => grey28 (fst e)) files ->
  Forall (fun b => b <> [] /\ Forall (fun i => (i < length files)%nat) b) bl ->
  forall yt yp,
    fold_left
      (fun acc batch =>
         a <~ acc ;;
         xy <~ batch ;;
         y_hat <~ forward self (fst xy) ;;
         yh <~ torch.argmax_axis1 y_hat ;;
         Ok (np.append (fst a) (snd xy), np.append (snd a) yh))
      (map (fun idxs =>
              items <~ mapM (MNIST_getitem (script_dataset files bs)) idxs ;;
              collate items) bl)
      (Ok (yt, yp))
    = Ok (yt ++ map (label_of files) (concat bl),
          yp ++ map (fun i => predicted self (normalized_pixels files i))
                    (concat bl)).
Proof.
  intros W Hg. induction 1 as [|b bl (Hne & Hi) _ IH]; intros yt yp.
  - cbn. now rewrite !app_nil_r.
  - cbn [map fold_left concat]. cbn [rbind].
    pose proof (fetch_run files bs b Hg Hne Hi) as Ef. unfold fetch in Ef.
    rewrite Ef. cbn [rbind fst snd].
    rewrite (batch_forward self h1 h2 files b W Hg Hne Hi). cbn [rbind].
    pose proof (argmax_scores self h1 h2 (map (normalized_pixels files) b) W) as Ea.
    rewrite length_map in Ea. rewrite Ea. cbn [rbind].
    unfold np.append. rewrite IH, !map_app, map_map, <- !app_assoc. reflexivity.
Qed.

(** X16.  [log_confusion_matrix] collects every example of the held-out
    set exactly once and in order: after [setup] in stage [test], its loop
    over the test loader ends with the labels of the held-out files as
    true labels and, at the same positions, the labels the model predicts
    for their normalized images. *)
Theorem confusion_labels_cover (self : LitModel) (h1 h2 : nat)
    (train_files test_files : list (tensor Z * Z))
    (randperm : nat -> list nat) (bs : Z) :
  wf_model self h1 h2 ->
  (0 < bs)%Z ->
  Forall (fun e => grey28 (fst e)) test_files ->
  exists dm' te,
    setup train_files test_files randperm (dm bs) "test" = Ok dm' /\
    mnist_test dm' = Some te /\
    test_dataloader dm' = Ok (mkDataLoader (Some te) bs 1) /\
    confusion_labels self (loader_batches MNIST_len MNIST_getitem te bs)
    = Ok (map snd test_files,
          map (fun e => predicted self
                          (map normalize (data (transforms.ToTensor (fst e)))))
              test_files).
Proof.
  intros W Hbs Hg.
  do 2 eexists. split; [reflexivity|]. cbn [mnist_test]. split; [reflexivity|].
  split.
  { unfold test_dataloader, new_DataLoader. cbn [mnist_test batch_size dm
      MNISTDataModule_init].
    change (1 <? 0)%Z with false. cbv iota.
    destruct (Z.leb_spec bs 0); [lia | reflexivity]. }
  unfold confusion_labels, loader_batches, MNIST_len. cbn [examples].
  destruct (index_batches_spec (length test_files) bs Hbs) as (C & F & _ & _).
  pose proof (concat_in_range _ _ C) as R.
  change (mkMNIST test_files
            (compose_transform (normalization_vector (dm bs))))
    with (script_dataset test_files bs).
  rewrite (confusion_fold self h1 h2 test_files bs _ W Hg).
  - rewrite C. cbn [app]. f_equal. f_equal.
    + apply (map_nth_seq snd).
    + apply (map_nth_seq
               (fun e => predicted self
                           (map normalize (data (transforms.ToTensor (fst e)))))).
  - rewrite Forall_forall in F, R |- *. intros b Hb. split.
    + intros E. pose proof (F b Hb) as Fb. rewrite E in Fb. cbn in Fb. lia.
    + exact (R b Hb).
Qed.

Lemma confusion_labels_cover_witness :
  exists self dm' te yp,
    LitModel_init (fun _ _ _ => 0) (fun _ _ => 1) 2 3 0.001 0.9 = Ok self /\
    setup [] [grey_file; light_file; grey_file] (fun n => seq 0 n) (dm 2) "test"
    = Ok dm' /\
    mnist_test dm' = Some te /\
    confusion_labels self (loader_batches MNIST_len MNIST_getitem te 2)
    = Ok ([7; 1; 7]%Z, yp) /\
    length yp = 3%nat.
Proof.
  destruct (LitModel_init_wf (fun _ _ _ => 0) (fun _ _ => 1) 2 3 0.001 0.9)
    as (self & E & W & _); [lia | lia |].
  destruct (confusion_labels_cover self _ _ []
              [grey_file; light_file; grey_file] (fun n => seq 0 n) 2 W)
    as (dm' & te & Es & Et & _ & Ec).
  - reflexivity.
  - repeat constructor.
  - exists self, dm', te. eexists.
    split; [exact E|]. split; [exact Es|]. split; [exact Et|].
    split; [exact Ec | reflexivity].
Defined.

(** ** Constructing the model *)

Lemma nn_Linear_negative (w : nat -> nat -> Q) (b : nat -> Q) (n_in n_out : Z) :
  (n_in < 0 \/ n_out < 0)%Z -> torch.nn_Linear w b n_in n_out = Raise RuntimeError.
Proof.
  intros H. unfold torch.nn_Linear.
  destruct (Z.ltb_spec n_in 0), (Z.ltb_spec n_out 0); try reflexivity. lia.
Qed.

(** X17.  The model is constructed exactly when neither hidden width is
    negative: a negative width makes [__init__] raise [RuntimeError], and
    with widths that are zero or more the three layers have the shapes
    784 -> linear_1 -> linear_2 -> 10 and the attribute [linear] holds
    [linear_2]. *)
Theorem LitModel_init_widths (w : nat -> nat -> nat -> Q) (b : nat -> nat -> Q)
    (linear_1 linear_2 : Z) (rate factor : Q) :
  ((linear_1 < 0 \/ linear_2 < 0)%Z ->
   LitModel_init w b linear_1 linear_2 rate factor = Raise RuntimeError) /\
  ((0 <= linear_1 /\ 0 <= linear_2)%Z ->
   exists self,
     LitModel_init w b linear_1 linear_2 rate factor = Ok self /\
     wf_model self (Z.to_nat linear_1) (Z.to_nat linear_2) /\
     linear self = linear_2 /\ current_epoch self = 0%nat).
Proof.
  split.
  - intros H. unfold LitModel_init.
    destruct (Z.ltb_spec linear_1 0) as [H1|H1].
    + rewrite (nn_Linear_negative _ _ (28 * 28) linear_1) by lia. reflexivity.
    + destruct (nn_Linear_wf (w 1%nat) (b 1%nat) (28 * 28) linear_1) as (l1 & E1 & _);
        [lia | lia |].
      rewrite E1. cbn [rbind].
      rewrite (nn_Linear_negative _ _ linear_1 linear_2) by lia. reflexivity.
  - intros [H1 H2]. unfold LitModel_init.
    destruct (nn_Linear_wf (w 1%nat) (b 1%nat) (28 * 28) linear_1) as (l1 & E1 & W1);
      [lia | exact H1 |].
    destruct (nn_Linear_wf (w 2%nat) (b 2%nat) linear_1 linear_2) as (l2 & E2 & W2);
      [exact H1 | exact H2 |].
    destruct (nn_Linear_wf (w 3%nat) (b 3%nat) linear_2 10) as (l3 & E3 & W3);
      [exact H2 | lia |].
    rewrite E1. cbn [rbind]. rewrite E2. cbn [rbind]. rewrite E3. cbn [rbind].
    eexists; split; [reflexivity|].
    repeat split; try apply W1; try apply W2; try apply W3.
Qed.

Lemma LitModel_init_widths_witness :
  LitModel_init (fun _ _ _ => 0) (fun _ _ => 1) 64 (-1) 0.001 0.9
  = Raise RuntimeError /\
  exists self,
    LitModel_init (fun _ _ _ => 0) (fun _ _ => 1) 0 3 0.001 0.9 = Ok self /\
    linear self = 3%Z.
Proof.
  destruct (LitModel_init_widths (fun _ _ _ => 0) (fun _ _ => 1) 64 (-1) 0.001 0.9)
    as (Hneg & _).
  destruct (LitModel_init_widths (fun _ _ _ => 0) (fun _ _ => 1) 0 3 0.001 0.9)
    as (_ & Hok).
  split.
  - apply Hneg. right. reflexivity.
  - destruct Hok as (self & E & _ & L & _); [split; discriminate|].
    exists self. split; assumption.
Defined.

(** ** A black image in the test step *)

Lemma fold_Qmax_zeros (l : list Q) :
  Forall (fun v => v = 0) l -> fold_left Qmax l 0 = 0.
Proof.
  induction 1 as [|v l Hv _ IH]; [reflexivity|].
  subst. cbn [fold_left]. exact IH.
Qed.

(** X18.  An image of the data set that is black all over has only
    negative pixels once normalized, so the rescaling of [test_step]
    divides 0 by 0: were it misclassified, the image sent would be 28 by
    28 pixels that are all [NaN]. *)
Theorem black_image_rescales_to_nan (image : tensor Z) (bs : Z) :
  grey28 image ->
  Forall (fun p => p = 0%Z) (data image) ->
  exists t out,
    compose_transform (normalization_vector (dm bs)) image = Ok t /\
    Forall (fun v => v < 0) (data t) /\
    rescale (np.squeeze t) = Ok out /\
    shape out = [28; 28]%nat /\
    length (data out) = 784%nat /\
    Forall (fun v => v = NaN) (data out).
Proof.
  intros Hg Hz.
  assert (Hlen : length (data image) = 784%nat).
  { destruct Hg as (Hs & Hw). unfold wf_tensor in Hw. rewrite Hs in Hw.
    cbn [numel fold_right] in Hw. lia. }
  rewrite (transform_run image bs Hg).
  set (px := map normalize (data (transforms.ToTensor image))).
  assert (Hpx : Forall (fun v => v = normalize (inject_Z 0 / 255)) px).
  { unfold px, transforms.ToTensor. cbn [data]. rewrite map_map.
    apply Forall_forall. intros v Hv. apply in_map_iff in Hv as (p & <- & Hp).
    rewrite Forall_forall in Hz. now rewrite (Hz p Hp). }
  assert (Lpx : length px = 784%nat).
  { unfold px, transforms.ToTensor. cbn [data]. now rewrite !length_map. }
  assert (Hcl : Forall (fun v => v = 0) (map clamp_negative px)).
  { apply Forall_forall. intros c Hc. apply in_map_iff in Hc as (v & <- & Hv).
    rewrite Forall_forall in Hpx. now rewrite (Hpx v Hv). }
  assert (Hgr : greatest (map clamp_negative px) = 0).
  { destruct (map clamp_negative px) as [|c cs] eqn:E; [reflexivity|].
    cbn [greatest]. inversion Hcl; subst. now apply fold_Qmax_zeros. }
  do 2 eexists. split; [reflexivity|]. cbn [data]. split.
  { eapply Forall_impl; [|exact Hpx]. cbv beta. intros v ->. reflexivity. }
  rewrite rescale_run.
  - split; [reflexivity|]. cbn [shape data np.squeeze].
    split; [reflexivity|]. split; [now rewrite length_map|].
    rewrite Hgr. apply Forall_forall. intros o Ho.
    apply in_map_iff in Ho as (v & <- & Hv).
    rewrite Forall_forall in Hpx. now rewrite (Hpx v Hv).
  - cbn [np.squeeze data]. intros E. rewrite E in Lpx. discriminate.
Qed.

Lemma black_image_rescales_to_nan_witness :
  exists t out,
    compose_transform (normalization_vector (dm 32)) black_image = Ok t /\
    rescale (np.squeeze t) = Ok out /\
    Forall (fun v => v = NaN) (data out).
Proof.
  destruct (black_image_rescales_to_nan black_image 32)
    as (t & out & Et & _ & Er & _ & _ & Hn).
  - split; reflexivity.
  - apply Forall_forall. intros p Hp. now apply repeat_spec in Hp.
  - exists t, out. repeat split; assumption.
Defined.

(** ** The three step hooks on one batch *)

(** What [test_step] returns and sends on a batch of [n] images. *)
Lemma test_step_run (F_cross_entropy : tensor Q -> list Z -> result Q)
    (self : LitModel) (h1 h2 n : nat) (x : tensor Q) (y : list Z) (l : Q)
    (s : list event) :
  wf_model self h1 h2 ->
  (1 <= n)%nat -> shape x = [n; 1; 28; 28]%nat -> wf_tensor x ->
  length y = n ->
  F_cross_entropy
    (mkTensor [n; 10]%nat (flat_map (scores self) (rows n 784 (data x)))) y
  = Ok l ->
  let yp := map (predicted self) (rows n 784 (data x)) in
  test_step F_cross_entropy self (x, y) s
  = (Ok (mkOutput l y yp None),
     s ++ map (fun j =>
                 experiment_log "test/misclassified_images"
                   (mkTensor [28; 28]%nat
                      (map (fun v =>
                              xdiv (clamp_negative v)
                                   (greatest (map clamp_negative (pixels x j))))
                           (pixels x j)))
                   None
                   (Some ("y_pred=" ++ str_int (nth j yp 0%Z)
                          ++ ", y_true=" ++ str_int (nth j y 0%Z))%string))
              (filter (fun j => negb (nth j y 0 =? nth j yp 0)%Z) (seq 0 n))).
Proof.
  intros W Hn Hs Hw Hy Hce yp.
  assert (Hyp : length yp = n) by (unfold yp; now rewrite length_map, length_rows).
  unfold test_step.
  unfold bind at 1, lift at 1. rewrite (forward_run self h1 h2 n x W Hn Hs Hw).
  unfold bind at 1, lift at 1. rewrite Hce.
  unfold bind at 1, lift at 1. rewrite (argmax_forward self h1 h2 n _ W).
  fold yp.
  destruct (where_not_equal y yp) as (mask & Em & Ew); [congruence|].
  unfold bind at 1, lift at 1. rewrite Em, Ew, Hy.
  unfold bind at 1.
  rewrite (for_each_emit_in _
             (fun j =>
                experiment_log "test/misclassified_images"
                  (mkTensor [28; 28]%nat
                     (map (fun v =>
                             xdiv (clamp_negative v)
                                  (greatest (map clamp_negative (pixels x j))))
                          (pixels x j)))
                  None
                  (Some ("y_pred=" ++ str_int (nth j yp 0%Z)
                         ++ ", y_true=" ++ str_int (nth j y 0%Z))%string))).
  - reflexivity.
  - intros j Hj s'. apply filter_In in Hj as [Hj _]. apply in_seq in Hj.
    assert (Hjn : (j < n)%nat) by lia.
    unfold bind at 1, lift at 1. rewrite (select_image x n j Hs Hjn).
    unfold bind at 1, lift at 1. rewrite rescale_run.
    + unfold bind at 1, lift at 1. rewrite (index_nth yp j 0%Z) by lia.
      unfold bind at 1, lift at 1. rewrite (index_nth y j 0%Z) by lia.
      reflexivity.
    + cbn [np.squeeze data]. intros E.
      pose proof (pixels_length x n j Hs Hw Hjn) as L.
      rewrite E in L. discriminate.
Qed.

Lemma agree_plus_where (u v : list Z) (i : nat) :
  Qsum (map2 agree u v)
  + inject_Z (Z.of_nat (length (np.where_from i
                                  (map2 (fun a b => negb (a =? b)%Z) u v))))
  == inject_Z (Z.of_nat (length (map2 agree u v))).
Proof.
  revert v i; induction u as [|a u IH]; intros [|b v] i; try reflexivity.
  cbn [map2 Qsum fold_right length np.where_from].
  fold (Qsum (map2 agree u v)).
  rewrite Nat2Z.inj_succ, <- Z.add_1_l, inject_Z_plus, <- (IH v (S i)).
  unfold agree at 1. destruct (a =? b)%Z; cbn [negb length].
  - ring.
  - rewrite Nat2Z.inj_succ, <- Z.add_1_l, inject_Z_plus. ring.
Qed.

(** X19.  On one batch the three step hooks agree: they return the same
    loss, true labels and predicted labels ([validation_step] adds its
    example prediction), and the accuracy that [training_step] logs is the
    share of the batch for which [test_step] sends no image. *)
Theorem step_hooks_agree (F_cross_entropy : tensor Q -> list Z -> result Q)
    (F_softmax : list Q -> list Q) (str_float : Q -> string)
    (self : LitModel) (h1 h2 n : nat) (x : tensor Q) (y : list Z) (l : Q)
    (s : list event) :
  wf_model self h1 h2 ->
  (1 <= n)%nat -> shape x = [n; 1; 28; 28]%nat -> wf_tensor x ->
  length y = n ->
  F_cross_entropy
    (mkTensor [n; 10]%nat (flat_map (scores self) (rows n 784 (data x)))) y
  = Ok l ->
  exists yp p q uploads,
    training_step F_cross_entropy self (x, y) s
    = (Ok (mkOutput l y yp None),
       s ++ [self_log "train/batch/loss" (Fin l);
             self_log "train/batch/acc" (Fin q)]) /\
    test_step F_cross_entropy self (x, y) s
    = (Ok (mkOutput l y yp None), s ++ uploads) /\
    validation_step F_cross_entropy F_softmax str_float self (x, y)
    = Ok (mkOutput l y yp (Some p)) /\
    q == (inject_Z (Z.of_nat n) - inject_Z (Z.of_nat (length uploads)))
         / inject_Z (Z.of_nat n).
Proof.
  intros W Hn Hs Hw Hy Hce.
  set (yp := map (predicted self) (rows n 784 (data x))).
  assert (Hyp : length yp = n) by (unfold yp; now rewrite length_map, length_rows).
  destruct (validation_step_run F_cross_entropy F_softmax str_float
              self h1 h2 n x y l W Hn Hs Hw Hy Hce) as (nm & descr & Ev).
  pose proof (test_step_run F_cross_entropy self h1 h2 n x y l s
                W Hn Hs Hw Hy Hce) as Et.
  cbv zeta in Et. fold yp in Et.
  assert (Hnz : Qeq_bool (inject_Z (Z.of_nat n)) 0 = false)
    by (apply count_nonzero; lia).
  exists yp. eexists. exists (Qsum (map2 agree y yp) / inject_Z (Z.of_nat n)).
  eexists. split; [|split; [exact Et | split; [exact Ev|]]].
  - unfold training_step.
    unfold bind at 1, lift at 1. rewrite (forward_run self h1 h2 n x W Hn Hs Hw).
    unfold bind at 1, lift at 1. rewrite Hce.
    unfold bind at 1, emit at 1.
    unfold bind at 1, lift at 1. rewrite (argmax_forward self h1 h2 n _ W). fold yp.
    unfold bind at 1, lift at 1.
    rewrite (accuracy_score_total y yp) by congruence.
    unfold np.mean. rewrite length_map2 by congruence.
    rewrite Hy, (xdiv_finite _ _ Hnz).
    unfold bind, emit, ret. now rewrite <- app_assoc.
  - rewrite length_map.
    destruct (where_not_equal y yp) as (mask & Em & Ew); [congruence|].
    rewrite Hy in Ew. rewrite <- Ew.
    unfold np.not_equal in Em. rewrite Hy, Hyp, Nat.eqb_refl in Em.
    injection Em as <-. unfold np.where_.
    pose proof (agree_plus_where y yp 0) as A.
    rewrite length_map2 in A by congruence. rewrite Hy in A.
    rewrite <- A. unfold Qdiv. ring.
Qed.

Lemma step_hooks_agree_witness :
  exists self yp p q uploads,
    LitModel_init (fun _ _ _ => 0) (fun _ _ => 1) 2 3 0.001 0.9 = Ok self /\
    training_step (fun _ _ => Ok 0.25) self (two_images, [0; 4]%Z) []
    = (Ok (mkOutput 0.25 [0; 4]%Z yp None),
       [] ++ [self_log "train/batch/loss" (Fin 0.25);
              self_log "train/batch/acc" (Fin q)]) /\
    test_step (fun _ _ => Ok 0.25) self (two_images, [0; 4]%Z) []
    = (Ok (mkOutput 0.25 [0; 4]%Z yp None), [] ++ uploads) /\
    validation_step (fun _ _ => Ok 0.25) (fun r => r) (fun _ => "0"%string)
                    self (two_images, [0; 4]%Z)
    = Ok (mkOutput 0.25 [0; 4]%Z yp (Some p)).
Proof.
  destruct (LitModel_init_wf (fun _ _ _ => 0) (fun _ _ => 1) 2 3 0.001 0.9)
    as (self & E & W & _); [lia | lia |].
  destruct (step_hooks_agree (fun _ _ => Ok 0.25) (fun r => r)
              (fun _ => "0"%string) self _ _ 2 two_images [0; 4]%Z 0.25 [] W)
    as (yp & p & q & uploads & Etr & Ete & Eva & _);
    [repeat constructor | reflexivity | reflexivity | reflexivity | reflexivity |].
  exists self, yp, p, q, uploads. repeat split; assumption.
Defined.

(** ** The order of the batches *)








